(** * BatuLabAiExcel: the workbook examination script

    A shallow embedding of [excel_files/examine_excel_direct.py] and of the
    addressing layer its specification describes, followed by the properties
    the specification states about them.

    Conventions of the embedding:
    - Python integers are [Z]; the 1-based row and column bounds that the
      workbook library reports are [positive], as the library computes them as
      maxima over stored 1-based coordinates with default 1;
    - Python strings are [string], read as sequences of code points below 256;
    - [print] and [json.dumps] calls are recorded as structured events, in
      order, in the interpreter state, together with the status of the
      workbook handle;
    - exceptions are the left summand of an error monad layered over that
      state, so that what was printed and done before a [raise] is kept. *)

From Stdlib Require Import String Ascii List Bool ZArith PArith NArith Lia.
From Stdlib Require Import DecimalString QArith.
From Stdlib Require Import Floats.SpecFloat.
From ExtLib Require Import Structures.Monad Structures.MonadState Structures.MonadExc.
From ExtLib Require Import Data.Monads.StateMonad Data.Monads.EitherMonad.
Import ListNotations.
Import MonadNotation.

Local Open Scope string_scope.
Local Open Scope Z_scope.
Local Open Scope monad_scope.

(** ** Python built-ins used by the script *)

Module Py.

(** [str(n)] for an integer. *)
Definition str_int (z : Z) : string := NilZero.string_of_int (Z.to_int z).

(** [str(b)] for a boolean. *)
Definition str_bool (b : bool) : string := if b then "True" else "False".

(** [c.isspace()] on the code points below 256. *)
Definition isspace (c : ascii) : bool :=
  let k := N_of_ascii c in
  ((9 <=? k) && (k <=? 13) || (28 <=? k) && (k <=? 32)
   || (k =? 133) || (k =? 160))%N.

(** [s.lstrip()]. *)
Fixpoint lstrip (s : string) : string :=
  match s with
  | EmptyString => EmptyString
  | String c s' => if isspace c then lstrip s' else s
  end.

(** [s.rstrip()]: a character is dropped when it is white space and
    everything after it was dropped. *)
Fixpoint rstrip (s : string) : string :=
  match s with
  | EmptyString => EmptyString
  | String c s' =>
      match rstrip s' with
      | EmptyString => if isspace c then EmptyString else String c EmptyString
      | r => String c r
      end
  end.

(** [s.strip()]. *)
Definition strip (s : string) : string := rstrip (lstrip s).

(** Truth value of a string: non-empty. *)
Definition truthy (s : string) : bool :=
  match s with EmptyString => false | _ => true end.

(** [s.zfill(width)], which is what the [%02d], [%04d] and [%06d] fields of
    [strftime] and of [datetime.__str__] produce on non-negative values. *)
Definition zfill (width : nat) (s : string) : string :=
  string_of_list_ascii (repeat "0"%char (width - String.length s)) ++ s.

(** [' | '.join(row)]. *)
Fixpoint join (sep : string) (l : list string) : string :=
  match l with
  | [] => ""
  | [x] => x
  | x :: rest => x ++ sep ++ join sep rest
  end.

End Py.

(** ** Column letters *)

Module Column.

(** The loop of the conversion: least significant letter first.  The fuel
    bounds the number of iterations; [N.size n] iterations always suffice
    (lemma [column_digits_value]). *)
Fixpoint column_digits (fuel : nat) (n : N) : list N :=
  match fuel with
  | O => []
  | S fuel' =>
      if (n =? 0)%N then []
      else ((n - 1) mod 26 + 1)%N :: column_digits fuel' ((n - 1) / 26)%N
  end.

Definition letter_of_digit (d : N) : ascii := ascii_of_N (d + 64).

(** The number a list of letter values denotes, least significant first. *)
Definition column_value (ds : list N) : N :=
  fold_right (fun d v => d + 26 * v)%N 0%N ds.

Definition is_digit (d : N) : Prop := (1 <= d <= 26)%N.

(** Modelled from the spec: [openpyxl.utils.get_column_letter], the
    [formatColumn] of the address parser, is called by the script but is not
    part of the repository.  It is the bijective base-26 encoding
    [A]=1 ... [Z]=26, [AA]=27, ... of a positive column index. *)
Definition get_column_letter (idx : positive) : string :=
  string_of_list_ascii
    (rev (map letter_of_digit
            (column_digits (N.to_nat (N.size (Npos idx))) (Npos idx)))).

Definition formatColumn : positive -> string := get_column_letter.

Inductive AddressError := InvalidAddress.

Definition is_upper (c : ascii) : bool :=
  let k := N_of_ascii c in ((65 <=? k) && (k <=? 90))%N.

Definition digit_of_letter (c : ascii) : option N :=
  if is_upper c then Some (N_of_ascii c - 64)%N else None.

Fixpoint parse_letters (acc : N) (s : string) : option N :=
  match s with
  | EmptyString => Some acc
  | String c s' =>
      match digit_of_letter c with
      | Some d => parse_letters (acc * 26 + d)%N s'
      | None => None
      end
  end.

(** Modelled from the spec: [parseColumn], the inverse of [formatColumn];
    no such function exists in the repository.  It reads the letters most
    significant first and fails with [InvalidAddress] on the empty string
    and on any character outside [A]..[Z]. *)
Definition parseColumn (s : string) : AddressError + positive :=
  match s with
  | EmptyString => inl InvalidAddress
  | _ =>
      match parse_letters 0 s with
      | Some (Npos p) => inr p
      | _ => inl InvalidAddress
      end
  end.

(** A valid column-letter string: non-empty, letters [A]..[Z] only. *)
Definition valid_column (s : string) : bool :=
  Py.truthy s && forallb is_upper (list_ascii_of_string s).

End Column.

(** ** Cell values and their renderings *)

(** The fields of a [datetime.datetime] value. *)
Record datetime := mkDatetime {
  year : Z; month : Z; day : Z;
  hour : Z; minute : Z; second : Z; microsecond : Z
}.


(** A zero-padded decimal field: [%02d], [%04d], [%06d]. *)
Definition field (width : nat) (z : Z) : string := Py.zfill width (Py.str_int z).

(** [d.strftime('%Y-%m-%d')]. *)
Definition strftime_date (d : datetime) : string :=
  field 4 (year d) ++ "-" ++ field 2 (month d) ++ "-" ++ field 2 (day d).

(** [d.strftime('%H:%M:%S')]. *)
Definition strftime_time (d : datetime) : string :=
  field 2 (hour d) ++ ":" ++ field 2 (minute d) ++ ":" ++ field 2 (second d).

(** [d.strftime('%Y-%m-%d %H:%M:%S')]. *)
Definition strftime_datetime (d : datetime) : string :=
  strftime_date d ++ " " ++ strftime_time d.

(** [str(d)]: ISO format with a space separator, the microseconds shown only
    when they are not zero. *)
Definition str_datetime (d : datetime) : string :=
  strftime_datetime d
  ++ (if microsecond d =? 0 then "" else "." ++ field 6 (microsecond d)).

(** The fields of a [datetime.time] value, which is what a cell formatted as
    a time of day holds. *)
Record time := mkTime {
  t_hour : Z; t_minute : Z; t_second : Z; t_microsecond : Z
}.

(** The fields of a [datetime.timedelta] value, which is what a cell formatted
    as a duration holds: any number of days, and the seconds and microseconds
    within the day. *)
Record timedelta := mkTimedelta {
  td_days : Z; td_seconds : Z; td_microseconds : Z
}.

(** [str(t)] for a time of day: [HH:MM:SS], the microseconds shown only when
    they are not zero. *)
Definition str_time (t : time) : string :=
  field 2 (t_hour t) ++ ":" ++ field 2 (t_minute t) ++ ":" ++ field 2 (t_second t)
  ++ (if t_microsecond t =? 0 then "" else "." ++ field 6 (t_microsecond t)).

(** [str(d)] for a duration: [H:MM:SS], after the days when there are any,
    before the microseconds when there are any. *)
Definition str_timedelta (d : timedelta) : string :=
  let hh := td_seconds d / 3600 in
  let mm := (td_seconds d / 60) mod 60 in
  let ss := td_seconds d mod 60 in
  (if td_days d =? 0 then ""
   else Py.str_int (td_days d) ++ " day"
        ++ (if Z.abs (td_days d) =? 1 then "" else "s") ++ ", ")
  ++ Py.str_int hh ++ ":" ++ field 2 mm ++ ":" ++ field 2 ss
  ++ (if td_microseconds d =? 0 then "" else "." ++ field 6 (td_microseconds d)).

(** What a cell of a workbook loaded with [data_only=True] holds. *)
Inductive CellValue :=
| VNone
| VStr (s : string)
| VInt (z : Z)
| VFloat (f : spec_float)
| VBool (b : bool)
| VDateTime (d : datetime)
| VTime (t : time)
| VTimedelta (d : timedelta).

(** What [formatted_row] holds for one cell of the simulated read, and so what
    [json.dumps] receives: the cell itself unless it is a [datetime].  A time
    of day and a duration are kept as they are; [json.dumps] cannot serialise
    them. *)
Inductive Json :=
| JNull
| JStr (s : string)
| JInt (z : Z)
| JFloat (f : spec_float)
| JBool (b : bool)
| JTime (t : time)
| JTimedelta (d : timedelta).

Definition is_None (v : CellValue) : bool :=
  match v with VNone => true | _ => false end.

(** ** Worksheets and workbooks, as the workbook library exposes them *)

Record Worksheet := mkWorksheet {
  title : string;
  max_row : positive;
  max_column : positive;
  (** [worksheet.cell(r, c).value]; [VNone] where nothing is stored *)
  value_at : positive -> positive -> CellValue
}.

Record Workbook := mkWorkbook {
  worksheets : list Worksheet;
  (** title of [workbook.active], which may be a chart sheet and so need not
      be one of [worksheets]; [None] when the container has no sheet *)
  active : option string
}.

(** [range(start, start + len)] on positive numbers. *)
Fixpoint pos_seq (start : positive) (len : nat) : list positive :=
  match len with
  | O => []
  | S len' => start :: pos_seq (Pos.succ start) len'
  end.

(** [range(lo, hi + 1)]. *)
Definition pos_range (lo hi : positive) : list positive :=
  pos_seq lo (Z.to_nat (Zpos hi + 1 - Zpos lo)).

(** [worksheet.iter_rows(min_row, max_row, min_col, max_col, values_only=True)]:
    one tuple per row of the rectangle, row-major, absent cells as [VNone]. *)
Definition iter_rows (ws : Worksheet) (min_row max_row min_col max_col : positive)
  : list (list CellValue) :=
  map (fun r => map (fun c => value_at ws r c) (pos_range min_col max_col))
      (pos_range min_row max_row).

(** [worksheet.iter_rows(values_only=True)]: the bounds default to the
    nominal grid.  (For a worksheet in which no cell was ever stored the
    library yields no row at all instead of one row holding one absent cell;
    the only use, the count of line 97, skips absent cells.) *)
Definition iter_rows_all (ws : Worksheet) : list (list CellValue) :=
  iter_rows ws 1 (max_row ws) 1 (max_column ws).

(** ** Output of the script *)

Record ws_info := mkWsInfo {
  name : string;
  used_range : string;
  info_max_row : positive;
  info_max_column : positive
}.

Record Metadata := mkMetadata {
  md_file_path : string;
  md_worksheets : list ws_info
}.

Record ReadResult := mkReadResult {
  rr_file_path : string;
  rr_worksheet_name : string;
  rr_range : string;
  rr_data : list (list Json)
}.

Inductive exn :=
| FileNotFoundError
| InvalidFileException
| AttributeError
| ZeroDivisionError
| TypeError.

(** One event per [print] call that interpolates a value, carrying that value;
    the fixed headings and rules printed in between are left out. *)
Inductive Event :=
| EvBanner (file_path : string)
| EvFilePath (file_path : string)
| EvTotalWorksheets (total : Z)
| EvActiveSheet (sheet_title : string)
| EvWorksheetNames (names : list string)
| EvSheetHeader (sheet_index : Z) (sheet_title : string)
| EvEmptyStatus
| EvUsedRange (range : string)
| EvDimensions (rows cols : positive)
| EvDataContent (rows : Z)
| EvHeaderRow (line : string)
| EvDataRow (i : Z) (line : string)
| EvMoreRows (remaining : Z)
| EvSampleCell (address : string) (text : string)
| EvTotalCells (n : Z)
| EvNonEmptyCells (n : Z)
| EvDensityPercent (q : Q)
| EvMetadata (m : Metadata)
| EvReadCall (sheet_title : string) (range : string)
| EvReadResult (r : ReadResult)
| EvFileNotFound (file_path : string)
| EvError (e : exn)
| EvCompleted.

Inductive Handle := NotOpened | Opened | Closed.

(** The interpreter state the script acts on: what was printed so far and the
    status of the workbook handle. *)
Record St := mkSt {
  trace : list Event;
  handle : Handle
}.

Definition initial : St := mkSt [] NotOpened.

(** Computations of the script: an exception or a value, and the state
    reached in either case. *)
Definition M : Type -> Type := eitherT exn (state St).

Definition run {A} (c : M A) (s : St) : (exn + A) * St :=
  runState (unEitherT c) s.

Definition print (e : Event) : M unit :=
  s <- get ;; put (mkSt (trace s ++ [e])%list (handle s)).

Definition set_handle (h : Handle) : M unit :=
  s <- get ;; put (mkSt (trace s) h).

(** [for i, x in enumerate(l, start): body(i, x)]. *)
Fixpoint for_enumerate {A} (start : Z) (l : list A) (body : Z -> A -> M unit)
  : M unit :=
  match l with
  | [] => ret tt
  | x :: rest => body start x ;; for_enumerate (start + 1) rest body
  end.

(** [if b: c]. *)
Definition when (b : bool) (c : M unit) : M unit := if b then c else ret tt.

(** [len(l)]. *)
Definition len {A} (l : list A) : Z := Z.of_nat (length l).

(** [a / b] on integers: the quotient, or [ZeroDivisionError].  The quotient
    is kept exact; the script's value is its rounding to binary64. *)
Definition true_div (a b : Z) : M Q :=
  if b =? 0 then raise ZeroDivisionError else ret (inject_Z a / inject_Z b)%Q.

(** [f"A1:{get_column_letter(cols)}{rows}"] (lines 42, 117, 151 and 155). *)
Definition a1_range (cols rows : positive) : string :=
  "A1:" ++ Column.get_column_letter cols ++ Py.str_int (Zpos rows).

(** Lines 138-145: the value put into [formatted_row] for one cell of the
    simulated [read_data_from_excel]. *)
Definition json_cell (cell : CellValue) : Json :=
  match cell with
  | VDateTime d => JStr (strftime_date d)
  | VNone => JNull
  | VStr s => JStr s
  | VInt z => JInt z
  | VFloat f => JFloat f
  | VBool b => JBool b
  | VTime t => JTime t
  | VTimedelta d => JTimedelta d
  end.

(** Lines 128-153: the simulated [read_data_from_excel] on the first
    worksheet. *)
Definition read_data_from_excel (file_path : string) (first_ws : Worksheet)
  : ReadResult :=
  let max_rows := Pos.min 5 (max_row first_ws) in
  let max_cols := Pos.min 5 (max_column first_ws) in
  let sample_data :=
    map (map json_cell) (iter_rows first_ws 1 max_rows 1 max_cols) in
  mkReadResult file_path (title first_ws) (a1_range max_cols max_rows) sample_data.

(** Whether [json.dumps] can serialise a value. *)
Definition serialisable (v : Json) : bool :=
  match v with
  | JTime _ | JTimedelta _ => false
  | _ => true
  end.

Definition dumps_ok (r : ReadResult) : bool :=
  forallb (forallb serialisable) (rr_data r).

(** Line 156: [json.dumps(read_result, indent=2)], which raises [TypeError] on
    a value it cannot serialise.  (The metadata of line 124 holds texts and
    numbers only and is always serialised.) *)
Definition json_dumps (r : ReadResult) : M ReadResult :=
  if dumps_ok r then ret r else raise TypeError.

(** Lines 115-120. *)
Definition ws_info_of (ws : Worksheet) : ws_info :=
  mkWsInfo (title ws) (a1_range (max_column ws) (max_row ws))
           (max_row ws) (max_column ws).

(** Lines 109-121: the simulated [get_workbook_metadata]; the loop appends
    one entry per worksheet. *)
Definition get_workbook_metadata (file_path : string) (wb : Workbook) : Metadata :=
  mkMetadata file_path
    (fold_left (fun entries ws => (entries ++ [ws_info_of ws])%list)
               (worksheets wb) []).

(** Lines 37-38: the test that guards "Status: Empty worksheet". *)
Definition is_empty_worksheet (ws : Worksheet) : bool :=
  if (max_row ws =? 1)%positive && (max_column ws =? 1)%positive
  then is_None (value_at ws 1 1)
  else false.

(** Line 91. *)
Definition total_cells (wb : Workbook) : Z :=
  fold_left Z.add
    (map (fun ws => Zpos (max_row ws) * Zpos (max_column ws)) (worksheets wb)) 0.

Section Script.

(** [repr] of a binary64 float, which is what [str] prints for it. *)
Variable float_repr : spec_float -> string.

(** [str(cell)]. *)
Definition py_str (cell : CellValue) : string :=
  match cell with
  | VNone => "None"
  | VStr s => s
  | VInt z => Py.str_int z
  | VFloat f => float_repr f
  | VBool b => Py.str_bool b
  | VDateTime d => str_datetime d
  | VTime t => str_time t
  | VTimedelta d => str_timedelta d
  end.

(** Lines 54-59: the text shown for one cell. *)
Definition display_cell (cell : CellValue) : string :=
  match cell with
  | VDateTime d => strftime_datetime d
  | VNone => ""
  | _ => py_str cell
  end.

(** Line 97: [cell is not None and str(cell).strip()]. *)
Definition counts_as_non_empty (cell : CellValue) : bool :=
  negb (is_None cell) && Py.truthy (Py.strip (py_str cell)).

(** Lines 92-98: the three nested loops over worksheets, rows and cells. *)
Definition non_empty_cells (wb : Workbook) : Z :=
  fold_left
    (fun n ws =>
       fold_left
         (fun n row =>
            fold_left
              (fun n cell => if counts_as_non_empty cell then n + 1 else n)
              row n)
         (iter_rows_all ws) n)
    (worksheets wb) 0.

(** Lines 64-75: the rows shown, at most the first fifteen. *)
Fixpoint print_rows (total : Z) (i : Z) (data : list (list string)) : M unit :=
  match data with
  | [] => ret tt
  | row :: rest =>
      (if i =? 0 then print (EvHeaderRow (Py.join " | " row))
       else print (EvDataRow i (Py.join " | " row))) ;;
      if 14 <=? i then
        let remaining := total - i - 1 in
        when (0 <? remaining) (print (EvMoreRows remaining))
      else print_rows total (i + 1) rest
  end.

(** Lines 33-86: the body of the loop over the worksheets. *)
Definition examine_worksheet (sheet_index : Z) (worksheet : Worksheet) : M unit :=
  print (EvSheetHeader sheet_index (title worksheet)) ;;
  if is_empty_worksheet worksheet then
    print EvEmptyStatus
  else
    let used_range := a1_range (max_column worksheet) (max_row worksheet) in
    print (EvUsedRange used_range) ;;
    print (EvDimensions (max_row worksheet) (max_column worksheet)) ;;
    let data :=
      map (map display_cell)
          (iter_rows worksheet 1 (max_row worksheet) 1 (max_column worksheet)) in
    print (EvDataContent (len data)) ;;
    print_rows (len data) 0 data ;;
    let at_least r c :=
      ((r <=? max_row worksheet) && (c <=? max_column worksheet))%positive in
    when (at_least 1 1)%positive
         (print (EvSampleCell "A1" (py_str (value_at worksheet 1 1)))) ;;
    when (at_least 2 1)%positive
         (print (EvSampleCell "A2" (py_str (value_at worksheet 2 1)))) ;;
    when (at_least 1 2)%positive
         (print (EvSampleCell "B1" (py_str (value_at worksheet 1 2)))) ;;
    when (at_least 2 2)%positive
         (print (EvSampleCell "B2" (py_str (value_at worksheet 2 2)))).

(** Line 102: [non_empty_cells/total_cells]. *)
Definition density (wb : Workbook) : M Q :=
  true_div (non_empty_cells wb) (total_cells wb).

(** Lines 91-102: the summary. *)
Definition summary (wb : Workbook) : M unit :=
  print (EvTotalCells (total_cells wb)) ;;
  print (EvNonEmptyCells (non_empty_cells wb)) ;;
  d <- density wb ;;
  print (EvDensityPercent (d * 100)%Q).

(** Lines 109-156: what the two tools would return. *)
Definition tool_simulation (file_path : string) (wb : Workbook) : M unit :=
  print (EvMetadata (get_workbook_metadata file_path wb)) ;;
  match worksheets wb with
  | [] => ret tt
  | first_ws :: _ =>
      let read_result := read_data_from_excel file_path first_ws in
      print (EvReadCall (title first_ws) (rr_range read_result)) ;;
      dumped <- json_dumps read_result ;;
      print (EvReadResult dumped)
  end.

(** Line 21: [fs] is the file system as the workbook library sees it. *)
Definition load_workbook (fs : string -> exn + Workbook) (file_path : string)
  : M Workbook :=
  match fs file_path with
  | inl e => raise e
  | inr wb => set_handle Opened ;; ret wb
  end.

(** Line 28: [workbook.active.title]. *)
Definition active_title (wb : Workbook) : M string :=
  match active wb with
  | None => raise AttributeError
  | Some t => ret t
  end.

(** Lines 20-158: the [try] block. *)
Definition try_block (fs : string -> exn + Workbook) (file_path : string)
  : M unit :=
  workbook <- load_workbook fs file_path ;;
  print (EvFilePath file_path) ;;
  print (EvTotalWorksheets (len (worksheets workbook))) ;;
  t <- active_title workbook ;;
  print (EvActiveSheet t) ;;
  print (EvWorksheetNames (map title (worksheets workbook))) ;;
  for_enumerate 1 (worksheets workbook) examine_worksheet ;;
  summary workbook ;;
  tool_simulation file_path workbook ;;
  set_handle Closed.

(** Lines 160-165: the two handlers. *)
Definition handler (file_path : string) (e : exn) : M unit :=
  match e with
  | FileNotFoundError => print (EvFileNotFound file_path)
  | _ => print (EvError e)
  end.

(** Lines 12-169. *)
Definition examine_excel_file (fs : string -> exn + Workbook)
           (file_path : string) : M unit :=
  print (EvBanner file_path) ;;
  catch (try_block fs file_path) (handler file_path) ;;
  print EvCompleted.

End Script.

(** ** Sample workbooks *)

(** A stand-in for the float printer in the sample runs, where no cell holds
    a float. *)
Definition no_repr (_ : spec_float) : string := "nan".

(** The five-by-three sheet of the specification's scenario, with only the
    top-left cell populated. *)
Definition sparse_sheet : Worksheet :=
  mkWorksheet "Sample Data" 5 3
    (fun r c => if ((r =? 1) && (c =? 1))%positive then VStr "Name" else VNone).

Definition empty_sheet : Worksheet :=
  mkWorksheet "Empty" 1 1 (fun _ _ => VNone).

Definition two_sheets : Workbook :=
  mkWorkbook [sparse_sheet; empty_sheet] (Some "Sample Data").



(** A sheet whose second cell holds a time of day. *)
Definition timed_sheet : Worksheet :=
  mkWorksheet "Times" 2 1
    (fun r _ => if (r =? 1)%positive then VStr "Start"
                else VTime (mkTime 9 30 0 0)).

(** A workbook whose only sheet is a chart sheet: no worksheet at all. *)
Definition chart_only : Workbook := mkWorkbook [] (Some "Chart1").

Definition fs_with (wb : Workbook) (path : string) : exn + Workbook :=
  if String.eqb path "test.xlsx" then inr wb else inl FileNotFoundError.


(** ** The statistics as the specification words them *)

(** The coordinates of the nominal grid of a worksheet, row-major. *)
Definition grid_cells (ws : Worksheet) : list (positive * positive) :=
  list_prod (pos_range 1 (max_row ws)) (pos_range 1 (max_column ws)).

(** Sum of the nominal row count times the nominal column count. *)
Definition spec_totalCells (wb : Workbook) : Z :=
  fold_right Z.add 0
    (map (fun ws => Zpos (max_row ws) * Zpos (max_column ws)) (worksheets wb)).

(** A cell contributes when it is not absent and its text, once trimmed of
    white space, is not the empty string. *)
Definition contributes (float_repr : spec_float -> string) (v : CellValue) : bool :=
  match v with
  | VNone => false
  | _ => negb (String.eqb (Py.strip (py_str float_repr v)) "")
  end.

(** Number of contributing cells within the nominal grids. *)
Definition spec_nonEmptyCells (float_repr : spec_float -> string) (wb : Workbook) : Z :=
  fold_right Z.add 0
    (map (fun ws =>
            len (filter (fun rc => contributes float_repr (value_at ws (fst rc) (snd rc)))
                        (grid_cells ws)))
         (worksheets wb)).

(** ** Reading a trace *)

(** The used ranges a trace reports, in order. *)
Definition reported_ranges (evs : list Event) : list string :=
  flat_map (fun e => match e with EvUsedRange r => [r] | _ => [] end) evs.

(** Whether a trace signals an empty worksheet. *)
Definition signals_empty (evs : list Event) : bool :=
  existsb (fun e => match e with EvEmptyStatus => true | _ => false end) evs.

(** The events that only show cell contents. *)
Definition is_detail (e : Event) : bool :=
  match e with
  | EvDataContent _ | EvHeaderRow _ | EvDataRow _ _ | EvMoreRows _
  | EvSampleCell _ _ => true
  | _ => false
  end.

(** A computation that only prints: it returns normally, appends [evs] to the
    trace and leaves the handle as it was. *)
Definition prints (c : M unit) (evs : list Event) : Prop :=
  forall s, run c s = (inr tt, mkSt (trace s ++ evs) (handle s)).


(** *** Reading a rendered date back *)







(** The sheet headers of a trace, in order. *)
Definition sheet_headers (evs : list Event) : list (Z * string) :=
  flat_map (fun e => match e with EvSheetHeader i t => [(i, t)] | _ => [] end) evs.

(** The line shown for the row at position [i]: the first row is the header,
    every other row carries its position. *)
Definition row_line (i : Z) (row : list string) : Event :=
  if i =? 0 then EvHeaderRow (Py.join " | " row)
  else EvDataRow i (Py.join " | " row).

(** The lines of rows at positions [i], [i + 1], ... *)
Fixpoint numbered_lines (i : Z) (data : list (list string)) : list Event :=
  match data with
  | [] => []
  | row :: rest => row_line i row :: numbered_lines (i + 1) rest
  end.

(** The event a handler prints for an exception. *)
Definition error_event (file_path : string) (e : exn) : Event :=
  match e with
  | FileNotFoundError => EvFileNotFound file_path
  | _ => EvError e
  end.

(** How the [try] block ends, read off the file system alone: the result and
    the status of the handle, given the status [h0] it started with. *)
Definition try_outcome (fs : string -> exn + Workbook) (file_path : string)
           (h0 : Handle) : (exn + unit) * Handle :=
  match fs file_path with
  | inl e => (inl e, h0)
  | inr wb =>
      match active wb, worksheets wb with
      | None, _ => (inl AttributeError, Opened)
      | Some _, [] => (inl ZeroDivisionError, Opened)
      | Some _, first_ws :: _ =>
          if dumps_ok (read_data_from_excel file_path first_ws)
          then (inr tt, Closed)
          else (inl TypeError, Opened)
      end
  end.

(** The texts of the whole nominal grid of a worksheet, row by row, as they
    are shown. *)
Definition display_rows (float_repr : spec_float -> string) (ws : Worksheet)
  : list (list string) :=
  map (fun r =>
         map (fun c => display_cell float_repr (value_at ws r c))
             (pos_range 1 (max_column ws)))
      (pos_range 1 (max_row ws)).

Definition is_sample (e : Event) : bool :=
  match e with EvSampleCell _ _ => true | _ => false end.

(** * The client script

    [excel_files/examine_excel.py] asks a spreadsheet server for the same two
    queries over a session and shows what comes back.  The server is the
    environment: what opening and initialising the session gives, what
    [list_tools] gives, and what each [call_tool] gives.  Nothing is assumed
    about the shape of an answer: a decoded answer is any JSON value, and the
    operations the script applies to it fail as Python's do. *)

Module Client.

(** A value as [json.loads] returns it.  The keys of an object are distinct. *)
#[warnings="-register-all"]
Inductive PyJson :=
| PNull
| PBool (b : bool)
| PInt (z : Z)
| PFloat (f : spec_float)
| PStr (s : string)
| PList (l : list PyJson)
| PDict (d : list (string * PyJson)).

Inductive exn :=
(** an exception of the session, of the server, or of [json.loads] *)
| Raised (message : string)
| AttributeError
| TypeError
| KeyError (key : PyJson)
| IndexError
(** slicing an object: a [TypeError] or a [KeyError], by Python version *)
| SliceError.

(** One content item of a tool result, as [json.loads(item.text)] turns out
    for it. *)
Definition Item : Type := exn + PyJson.

Inductive Call :=
| get_workbook_metadata (file_path : string)
| read_data_from_excel (file_path worksheet_name range : string).

Record Server := mkServer {
  (** entering the two [async with] blocks and [session.initialize()] *)
  connect : option exn;
  (** [session.list_tools()]: the name and description of each tool *)
  list_tools : exn + list (string * string);
  (** [session.call_tool(...)]: the content of the result *)
  call_tool : Call -> exn + list Item
}.

(** The text of a cell in a joined line: [str(cell)], or nothing for
    [None].  Events carry the values that the script interpolates, not their
    rendering: [StrOf v] stands for [str(v)]. *)
Inductive Text :=
| Blank
| StrOf (v : PyJson).

Inductive Event :=
| EvStarting
| EvInitialized
| EvTools (count : Z)
| EvTool (tool_name description : string)
| EvExamining
| EvSection (number : Z)
| EvFile (file_path : PyJson)
| EvTotalWorksheets (count : Z)
| EvSheet (i : Z) (sheet_name used_range : PyJson)
| EvRange (range : string)
| EvRowsReturned (count : Z)
| EvPreviewTitle
| EvSummaryTitle
| EvHeader (cells : list Text)
| EvData (cells : list Text)
| EvSummary (cells : list Text)
| EvCell (range : string) (value : PyJson)
| EvCells (range : string) (values : list PyJson)
| EvSectionError (number : Z) (e : exn)
| EvCompleted
| EvFailure (e : exn).

(** Computations of the script: an exception or a value, and what was printed
    until then. *)
Definition C : Type -> Type := eitherT exn (state (list Event)).

Definition run {A} (c : C A) (t : list Event) : (exn + A) * list Event :=
  runState (unEitherT c) t.

Definition print (e : Event) : C unit :=
  t <- get ;; put (t ++ [e])%list.

(** [for i, x in enumerate(l, start): body(i, x)]. *)
Fixpoint for_enumerate {A} (start : Z) (l : list A) (body : Z -> A -> C unit)
  : C unit :=
  match l with
  | [] => ret tt
  | x :: rest => body start x ;; for_enumerate (start + 1) rest body
  end.

(** [for x in l: body(x)]. *)
Fixpoint for_each {A} (l : list A) (body : A -> C unit) : C unit :=
  match l with
  | [] => ret tt
  | x :: rest => body x ;; for_each rest body
  end.

(** [\[f(x) for x in l if ...\]] where [f] may fail and may skip. *)
Fixpoint collect {A B} (l : list A) (f : A -> C (option B)) : C (list B) :=
  match l with
  | [] => ret []
  | x :: rest =>
      y <- f x ;;
      ys <- collect rest f ;;
      ret (match y with Some b => b :: ys | None => ys end)
  end.

Definition when (b : bool) (c : C unit) : C unit := if b then c else ret tt.

(** *** The operations of Python the script applies to decoded values *)

Fixpoint lookup (d : list (string * PyJson)) (key : string) : option PyJson :=
  match d with
  | [] => None
  | (k, v) :: rest => if String.eqb k key then Some v else lookup rest key
  end.

(** [v.get(key, default)]: only objects have [get]. *)
Definition py_get (v : PyJson) (key : string) (default : PyJson) : C PyJson :=
  match v with
  | PDict d => ret (match lookup d key with Some x => x | None => default end)
  | _ => raise AttributeError
  end.

(** [len(v)]. *)
Definition py_len (v : PyJson) : C Z :=
  match v with
  | PList l => ret (len l)
  | PDict d => ret (len d)
  | PStr s => ret (Z.of_nat (String.length s))
  | _ => raise TypeError
  end.

(** The items [for x in v] runs over: the elements of a list, the characters
    of a string, the keys of an object. *)
Definition py_iter (v : PyJson) : C (list PyJson) :=
  match v with
  | PList l => ret l
  | PStr s => ret (map (fun c => PStr (String c EmptyString)) (list_ascii_of_string s))
  | PDict d => ret (map (fun kv => PStr (fst kv)) d)
  | _ => raise TypeError
  end.

(** [v\[key\]] for a string key. *)
Definition py_item (v : PyJson) (key : string) : C PyJson :=
  match v with
  | PDict d =>
      match lookup d key with
      | Some x => ret x
      | None => raise (KeyError (PStr key))
      end
  | _ => raise TypeError
  end.

(** [v\[0\]]. *)
Definition py_first (v : PyJson) : C PyJson :=
  match v with
  | PList (x :: _) => ret x
  | PList [] => raise IndexError
  | PStr (String c _) => ret (PStr (String c EmptyString))
  | PStr EmptyString => raise IndexError
  | PDict _ => raise (KeyError (PInt 0))
  | _ => raise TypeError
  end.

(** [v\[:10\]]. *)
Definition py_first_ten (v : PyJson) : C PyJson :=
  match v with
  | PList l => ret (PList (firstn 10 l))
  | PStr s => ret (PStr (substring 0 10 s))
  | PDict _ => raise SliceError
  | _ => raise TypeError
  end.

(** The truth value of [v]. *)
Definition truthy (v : PyJson) : bool :=
  match v with
  | PNull => false
  | PBool b => b
  | PInt z => negb (z =? 0)
  | PFloat (S754_zero _) => false
  | PFloat _ => true
  | PStr s => Py.truthy s
  | PList l => match l with [] => false | _ => true end
  | PDict d => match d with [] => false | _ => true end
  end.

Definition is_None (v : PyJson) : bool :=
  match v with PNull => true | _ => false end.

(** [str(cell) if cell is not None else ""]. *)
Definition text_of (cell : PyJson) : Text :=
  if is_None cell then Blank else StrOf cell.

(** [\[str(cell) if cell is not None else "" for cell in row\]]. *)
Definition row_texts (row : PyJson) : C (list Text) :=
  cells <- py_iter row ;; ret (map text_of cells).

(** *** The script *)

(** The first content item decoded, when there is one: [if result.content:]
    and [json.loads(result.content\[0\].text)]. *)
Definition first_item (content : list Item) : C (option PyJson) :=
  match content with
  | [] => ret None
  | inl e :: _ => raise e
  | inr v :: _ => ret (Some v)
  end.

Definition call (server : Server) (c : Call) : C (option PyJson) :=
  match call_tool server c with
  | inl e => raise e
  | inr content => first_item content
  end.

(** Lines 52-58: what is shown of the metadata. *)
Definition show_metadata (metadata : PyJson) : C unit :=
  file_path <- py_get metadata "file_path" (PStr "N/A") ;;
  print (EvFile file_path) ;;
  listed <- py_get metadata "worksheets" (PList []) ;;
  n <- py_len listed ;;
  print (EvTotalWorksheets n) ;;
  worksheets <- py_get metadata "worksheets" (PList []) ;;
  items <- py_iter worksheets ;;
  for_enumerate 1 items
    (fun i ws =>
       sheet_name <- py_item ws "name" ;;
       range <- py_item ws "used_range" ;;
       print (EvSheet i sheet_name range)).

(** Lines 47-58. *)
Definition section_1 (server : Server) : C unit :=
  answer <- call server (get_workbook_metadata "test.xlsx") ;;
  match answer with
  | None => ret tt
  | Some metadata => show_metadata metadata
  end.

(** Lines 75-76 and 101-102: the range, the number of rows, and the rows. *)
Definition rows_returned (range : string) (data : PyJson) : C PyJson :=
  print (EvRange range) ;;
  listed <- py_get data "data" (PList []) ;;
  n <- py_len listed ;;
  print (EvRowsReturned n) ;;
  py_get data "data" (PList []).

(** Lines 79-85: the preview of the first ten rows. *)
Definition show_preview (data : PyJson) : C unit :=
  rows <- rows_returned "A1:E10" data ;;
  when (truthy rows)
    (print EvPreviewTitle ;;
     shown <- py_first_ten rows ;;
     items <- py_iter shown ;;
     for_enumerate 0 items
       (fun i row =>
          texts <- row_texts row ;;
          print (if i =? 0 then EvHeader texts else EvData texts))).

(** Lines 67-85. *)
Definition section_2 (server : Server) : C unit :=
  answer <- call server (read_data_from_excel "test.xlsx" "Sample Data" "A1:E10") ;;
  match answer with
  | None => ret tt
  | Some data => show_preview data
  end.

(** Line 109: [row and any(cell is not None for cell in row)]. *)
Definition has_content (row : PyJson) : C bool :=
  if truthy row then
    cells <- py_iter row ;; ret (existsb (fun cell => negb (is_None cell)) cells)
  else ret false.

(** Lines 105-112: the rows of the summary that hold something. *)
Definition show_summary (data : PyJson) : C unit :=
  rows <- rows_returned "A1:C10" data ;;
  when (truthy rows)
    (print EvSummaryTitle ;;
     items <- py_iter rows ;;
     for_enumerate 0 items
       (fun i row =>
          shown <- has_content row ;;
          if (shown : bool) then
            texts <- row_texts row ;;
            print (if i =? 0 then EvHeader texts else EvSummary texts)
          else ret tt)).

(** Lines 93-112. *)
Definition section_3 (server : Server) : C unit :=
  answer <- call server
              (read_data_from_excel "test.xlsx" "Department Summary" "A1:C10") ;;
  match answer with
  | None => ret tt
  | Some data => show_summary data
  end.

(** Line 139: the first cell of each row that has one that is not [None]. *)
Definition first_cells (rows : PyJson) : C (list PyJson) :=
  items <- py_iter rows ;;
  collect items
    (fun row =>
       if truthy row then
         cell <- py_first row ;;
         ret (if is_None cell then None else Some cell)
       else ret None).

(** Lines 131-140: one cell is shown as its value, anything else as the list
    of the first cells of its rows. *)
Definition show_cells (cell_range : string) (data : PyJson) : C unit :=
  rows <- py_get data "data" (PList []) ;;
  when (truthy rows)
    (n <- py_len rows ;;
     single <- (if n =? 1 then
                  row <- py_first rows ;; m <- py_len row ;; ret (m =? 1)
                else ret false) ;;
     if (single : bool) then
       row <- py_first rows ;;
       value <- py_first row ;;
       print (EvCell cell_range value)
     else
       values <- first_cells rows ;;
       print (EvCells cell_range values)).

(** Lines 122-140: the body of the loop over the four ranges. *)
Definition read_cells (server : Server) (cell_range : string) : C unit :=
  answer <- call server (read_data_from_excel "test.xlsx" "Sample Data" cell_range) ;;
  match answer with
  | None => ret tt
  | Some data => show_cells cell_range data
  end.

Definition cell_ranges : list string := ["A1"; "B2"; "E2"; "A1:A5"].

(** Lines 121-140. *)
Definition section_4 (server : Server) : C unit :=
  for_each cell_ranges (read_cells server).

(** A numbered section: its heading, then its body in a [try] of its own. *)
Definition section (number : Z) (body : C unit) : C unit :=
  print (EvSection number) ;;
  catch body (fun e => print (EvSectionError number e)).

(** Lines 44-147: the four sections and the completion notice. *)
Definition four_sections (server : Server) : C unit :=
  section 1 (section_1 server) ;;
  section 2 (section_2 server) ;;
  section 3 (section_3 server) ;;
  section 4 (section_4 server) ;;
  print EvCompleted.

(** Lines 27-147: the outer [try] block.  Leaving the two [async with]
    blocks is taken not to raise and prints nothing. *)
Definition session (server : Server) : C unit :=
  match connect server with
  | Some e => raise e
  | None =>
      print EvInitialized ;;
      tools <- (match list_tools server with
                | inl e => raise e
                | inr tools => ret tools
                end) ;;
      print (EvTools (len tools)) ;;
      for_each tools (fun tool => print (EvTool (fst tool) (snd tool))) ;;
      print EvExamining ;;
      four_sections server
  end.

(** Lines 13-153. *)
Definition examine_excel_file (server : Server) : C unit :=
  print EvStarting ;;
  catch (session server) (fun e => print (EvFailure e)).

(** *** Reading a trace *)

Definition sections_of (t : list Event) : list Z :=
  flat_map (fun e => match e with EvSection n => [n] | _ => [] end) t.

Definition is_row (e : Event) : bool :=
  match e with EvHeader _ | EvData _ | EvSummary _ => true | _ => false end.

Definition is_inner (e : Event) : bool :=
  match e with
  | EvFile _ | EvTotalWorksheets _ | EvSheet _ _ _ | EvRange _
  | EvRowsReturned _ | EvPreviewTitle | EvSummaryTitle | EvHeader _ | EvData _
  | EvSummary _ | EvCell _ _ | EvCells _ _ => true
  | _ => false
  end.

(** What a section may print after its heading: its rows and values, and
    the error of its own handler. *)
Definition in_section (number : Z) (e : Event) : bool :=
  is_inner e
  || match e with EvSectionError n _ => n =? number | _ => false end.

(** A computation that returns [v] after printing [evs]. *)
Definition emits {A} (c : C A) (v : A) (evs : list Event) : Prop :=
  forall t, run c t = (inr v, (t ++ evs)%list).

(** A computation that raises [e] after printing [evs]. *)
Definition fails {A} (c : C A) (e : exn) (evs : list Event) : Prop :=
  forall t, run c t = (inl e, (t ++ evs)%list).

(** A computation that, whether it returns or raises, only adds events of
    the inside of a section to what was printed. *)
Definition inner {A} (c : C A) : Prop :=
  forall t, exists r evs,
    run c t = (r, (t ++ evs)%list) /\ forallb is_inner evs = true.

(** *** Well-formed answers, and what is shown of them *)

(** The lines of a preview: the first row as header, the others as data. *)
Definition preview_lines (rows : list (list PyJson)) : list Event :=
  match rows with
  | [] => []
  | header :: others =>
      EvHeader (map text_of header)
      :: map (fun row => EvData (map text_of row)) others
  end.

(** The lines of a summary from position [i] on: a row without any cell
    other than [None] has no line. *)
Fixpoint summary_lines (i : Z) (rows : list (list PyJson)) : list Event :=
  match rows with
  | [] => []
  | row :: rest =>
      (if existsb (fun cell => negb (is_None cell)) row
       then [if i =? 0 then EvHeader (map text_of row)
             else EvSummary (map text_of row)]
       else [])
      ++ summary_lines (i + 1) rest
  end.

(** The first cells of the rows, those that are [None] left out. *)
Definition first_column (rows : list (list PyJson)) : list PyJson :=
  flat_map (fun row =>
              match row with
              | cell :: _ => if is_None cell then [] else [cell]
              | [] => []
              end) rows.

(** The name and the used range of a worksheet entry that has both. *)
Definition entry_fields (entry : PyJson) : option (PyJson * PyJson) :=
  match entry with
  | PDict d =>
      match lookup d "name", lookup d "used_range" with
      | Some n, Some r => Some (n, r)
      | _, _ => None
      end
  | _ => None
  end.

(** The lines of the worksheets numbered from [i] on. *)
Fixpoint sheet_lines (i : Z) (fields : list (PyJson * PyJson)) : list Event :=
  match fields with
  | [] => []
  | (n, r) :: rest => EvSheet i n r :: sheet_lines (i + 1) rest
  end.

(** *** A sample server *)

Definition sample_rows : list (list PyJson) :=
  [[PStr "Name"; PStr "Age"]; [PNull; PNull]; [PStr "Ann"; PInt 31]].

Definition sample_data : PyJson :=
  PDict [("data", PList (map PList sample_rows))].

Definition sample_metadata : PyJson :=
  PDict [("file_path", PStr "test.xlsx");
         ("worksheets",
          PList [PDict [("name", PStr "Sample Data"); ("used_range", PStr "A1:C5")];
                 PDict [("name", PStr "Empty")]])].

Definition sample_server : Server :=
  mkServer None (inr [("read_data_from_excel", "Read a range")])
    (fun c =>
       match c with
       | get_workbook_metadata _ => inr [inr sample_metadata]
       | read_data_from_excel _ sheet _ =>
           if String.eqb sheet "Sample Data" then inr [inr sample_data]
           else inl (Raised "no such worksheet")
       end).

End Client.

(** * Properties *)

(** ** Column letters: the two conversions are inverse to each other *)

Module ColumnFacts.
Import Column.

Lemma column_digits_spec (fuel : nat) :
  forall n, (n < 2 ^ N.of_nat fuel)%N ->
    column_value (column_digits fuel n) = n /\
    Forall is_digit (column_digits fuel n).
Proof.
  induction fuel as [|fuel IH]; intros n Hn.
  - simpl in *. assert (n = 0%N) by lia. subst. split; [reflexivity | constructor].
  - cbn [column_digits]. destruct (N.eqb_spec n 0) as [->|Hnz].
    + split; [reflexivity | constructor].
    + assert (Hq : ((n - 1) / 26 < 2 ^ N.of_nat fuel)%N).
      { apply N.Div0.div_lt_upper_bound.
        rewrite Nat2N.inj_succ, N.pow_succ_r' in Hn. lia. }
      destruct (IH _ Hq) as [Hv Hd].
      pose proof (N.div_mod (n - 1) 26 ltac:(lia)) as Hdm.
      pose proof (N.mod_lt (n - 1) 26 ltac:(lia)) as Hlt.
      split.
      * cbn [column_value fold_right].
        fold (column_value (column_digits fuel ((n - 1) / 26))).
        rewrite Hv.
        clear - Hnz Hdm.
        generalize dependent ((n - 1) / 26)%N.
        generalize dependent ((n - 1) mod 26)%N. intros; lia.
      * constructor; [|exact Hd]. unfold is_digit. clear - Hlt.
        generalize dependent ((n - 1) mod 26)%N. intros; lia.
Qed.

Lemma column_digits_unique (ds : list N) :
  Forall is_digit ds ->
  forall fuel, (column_value ds < 2 ^ N.of_nat fuel)%N ->
    column_digits fuel (column_value ds) = ds.
Proof.
  induction 1 as [|d ds Hd Hds IH]; intros fuel Hlt.
  - destruct fuel; reflexivity.
  - cbn [column_value fold_right] in *. fold (column_value ds) in *.
    unfold is_digit in Hd.
    destruct fuel as [|fuel].
    + simpl in Hlt. lia.
    + cbn [column_digits].
      destruct (N.eqb_spec (d + 26 * column_value ds) 0) as [E|_]; [lia|].
      assert (Hq : ((d + 26 * column_value ds - 1) / 26 = column_value ds)%N).
      { symmetry. apply (N.div_unique _ 26 _ (d - 1)); lia. }
      assert (Hr : ((d + 26 * column_value ds - 1) mod 26 = d - 1)%N).
      { symmetry. apply (N.mod_unique _ 26 (column_value ds)); lia. }
      rewrite Hq, Hr. f_equal; [lia|].
      apply IH. rewrite Nat2N.inj_succ, N.pow_succ_r' in Hlt. lia.
Qed.

Lemma digit_of_letter_of_digit d :
  is_digit d -> digit_of_letter (letter_of_digit d) = Some d.
Proof.
  unfold is_digit, digit_of_letter, is_upper, letter_of_digit. intros Hd.
  rewrite N_ascii_embedding by lia.
  replace ((65 <=? d + 64)%N) with true by (symmetry; apply N.leb_le; lia).
  replace ((d + 64 <=? 90)%N) with true by (symmetry; apply N.leb_le; lia).
  simpl. f_equal. lia.
Qed.

Lemma is_upper_bounds c :
  is_upper c = true -> (65 <= N_of_ascii c <= 90)%N.
Proof.
  unfold is_upper. intros H. apply andb_true_iff in H as [H1 H2].
  apply N.leb_le in H1, H2. lia.
Qed.

Lemma letter_of_digit_of_letter c :
  is_upper c = true -> letter_of_digit (N_of_ascii c - 64) = c.
Proof.
  intros H. apply is_upper_bounds in H. unfold letter_of_digit.
  replace (N_of_ascii c - 64 + 64)%N with (N_of_ascii c) by lia.
  apply ascii_N_embedding.
Qed.

(** Reading a string of letters, most significant first. *)
Lemma parse_letters_digits (ds : list N) :
  Forall is_digit ds ->
  forall acc,
    parse_letters acc (string_of_list_ascii (map letter_of_digit ds))
    = Some (fold_left (fun a d => a * 26 + d)%N ds acc).
Proof.
  induction 1 as [|d ds Hd _ IH]; intros acc; [reflexivity|].
  cbn [map string_of_list_ascii parse_letters fold_left].
  rewrite (digit_of_letter_of_digit d Hd). apply IH.
Qed.

Lemma fold_left_column_value (ds : list N) :
  fold_left (fun a d => a * 26 + d)%N (rev ds) 0%N = column_value ds.
Proof.
  unfold column_value. rewrite <- fold_left_rev_right, rev_involutive.
  induction ds as [|d ds IH]; [reflexivity|].
  cbn [fold_right]. rewrite IH. lia.
Qed.

Lemma parseColumn_of_parse s p :
  parse_letters 0 s = Some (Npos p) -> parseColumn s = inr p.
Proof.
  intros H. unfold parseColumn. destruct s; [discriminate|]. now rewrite H.
Qed.

Lemma parse_letters_reject s :
  forall acc c, In c (list_ascii_of_string s) -> is_upper c = false ->
    parse_letters acc s = None.
Proof.
  induction s as [|a s IH]; intros acc c Hin Hc; [destruct Hin|].
  cbn [parse_letters]. unfold digit_of_letter.
  destruct (is_upper a) eqn:Ha; [|reflexivity].
  destruct Hin as [->|Hin]; [congruence|]. eapply IH; eauto.
Qed.

Lemma get_column_letter_digits (n : positive) :
  exists ds, Forall is_digit ds /\ column_value ds = Npos n /\
    get_column_letter n = string_of_list_ascii (map letter_of_digit (rev ds)).
Proof.
  destruct (column_digits_spec (N.to_nat (N.size (Npos n))) (Npos n)) as [Hv Hd].
  { rewrite N2Nat.id. apply N.size_gt. }
  eexists; split; [exact Hd|]; split; [exact Hv|].
  unfold get_column_letter. now rewrite map_rev.
Qed.

Lemma parse_get_column_letter (n : positive) :
  parseColumn (get_column_letter n) = inr n.
Proof.
  destruct (get_column_letter_digits n) as (ds & Hd & Hv & ->).
  apply parseColumn_of_parse.
  rewrite parse_letters_digits by (now apply Forall_rev).
  now rewrite fold_left_column_value, Hv.
Qed.

Lemma column_value_pos d ds : is_digit d -> (0 < column_value (ds ++ [d]))%N.
Proof.
  intros Hd. unfold is_digit in Hd. induction ds as [|x ds IH].
  - simpl. lia.
  - cbn [app column_value fold_right] in *. fold (column_value (ds ++ [d])) in *. lia.
Qed.

Lemma get_parse_column s :
  valid_column s = true ->
  exists n, parseColumn s = inr n /\ get_column_letter n = s.
Proof.
  unfold valid_column. intros H. apply andb_true_iff in H as [Hne Hup].
  rewrite forallb_forall in Hup.
  set (cs := list_ascii_of_string s) in *.
  set (ds := map (fun c => (N_of_ascii c - 64)%N) cs).
  assert (Hds : Forall is_digit ds).
  { apply Forall_forall. intros d Hd. apply in_map_iff in Hd as (c & <- & Hc).
    pose proof (is_upper_bounds c (Hup c Hc)). unfold is_digit. lia. }
  assert (Hs : s = string_of_list_ascii (map letter_of_digit ds)).
  { rewrite <- (string_of_list_ascii_of_string s). fold cs. f_equal.
    unfold ds. rewrite map_map.
    transitivity (map (fun c : ascii => c) cs); [symmetry; apply map_id|].
    apply map_ext_in. intros c Hc. symmetry.
    now apply letter_of_digit_of_letter, Hup. }
  assert (Hparse : parse_letters 0 s = Some (column_value (rev ds))).
  { rewrite Hs at 1. rewrite parse_letters_digits by exact Hds.
    now rewrite <- fold_left_column_value, rev_involutive. }
  assert (Hpos : (0 < column_value (rev ds))%N).
  { destruct cs as [|c cs'] eqn:Ecs.
    - subst cs. destruct s; [discriminate Hne | discriminate Ecs].
    - unfold ds. cbn [map rev]. apply column_value_pos.
      pose proof (is_upper_bounds c (Hup c (or_introl eq_refl))).
      unfold is_digit. lia. }
  destruct (column_value (rev ds)) as [|n] eqn:Ev; [lia|].
  exists n. split; [now apply parseColumn_of_parse|].
  unfold get_column_letter. rewrite <- Ev.
  rewrite column_digits_unique.
  - now rewrite <- map_rev, rev_involutive.
  - now apply Forall_rev.
  - rewrite N2Nat.id. apply N.size_gt.
Qed.

End ColumnFacts.

(** C9.  Column-letter conversion is a bijective base-26 round trip: parsing
    the letters of any positive column index gives the index back; formatting
    the index parsed from any valid column-letter string gives the string
    back; and parsing fails with [InvalidAddress] on the empty string and on
    any input holding a character that is not one of the letters. *)
Theorem column_letter_round_trip :
  (forall n : positive,
      Column.parseColumn (Column.formatColumn n) = inr n) /\
  (forall s : string,
      Column.valid_column s = true ->
      exists n, Column.parseColumn s = inr n /\ Column.formatColumn n = s) /\
  Column.parseColumn "" = inl Column.InvalidAddress /\
  (forall (s : string) (c : ascii),
      In c (list_ascii_of_string s) -> Column.is_upper c = false ->
      Column.parseColumn s = inl Column.InvalidAddress).
Proof.
  split; [exact ColumnFacts.parse_get_column_letter|].
  split; [exact ColumnFacts.get_parse_column|].
  split; [reflexivity|].
  intros s c Hin Hc. unfold Column.parseColumn.
  destruct s; [reflexivity|].
  now rewrite (ColumnFacts.parse_letters_reject _ 0%N c Hin Hc).
Qed.

Lemma column_letter_round_trip_witness :
  exists n, Column.parseColumn "XFD" = inr n /\ Column.formatColumn n = "XFD".
Proof.
  exact (proj1 (proj2 column_letter_round_trip) "XFD" eq_refl).
Defined.

(** ** Running the script's computations *)

Section RunFacts.
Context {A B : Type}.

Lemma run_ret (x : A) s : run (ret x) s = (inr x, s).
Proof. reflexivity. Qed.

Lemma run_bind (c : M A) (f : A -> M B) s :
  run (bind c f) s =
  match run c s with
  | (inl e, s') => (inl e, s')
  | (inr x, s') => run (f x) s'
  end.
Proof.
  unfold run. simpl. destruct (runState (unEitherT c) s) as [[e|x] s']; reflexivity.
Qed.

Lemma run_raise (e : exn) s : run (raise e : M A) s = (inl e, s).
Proof. reflexivity. Qed.

Lemma run_catch (c : M A) (h : exn -> M A) s :
  run (catch c h) s =
  match run c s with
  | (inl e, s') => run (h e) s'
  | (inr x, s') => (inr x, s')
  end.
Proof.
  unfold run. simpl. destruct (runState (unEitherT c) s) as [[e|x] s']; reflexivity.
Qed.
End RunFacts.

Lemma run_print e s : run (print e) s = (inr tt, mkSt (trace s ++ [e]) (handle s)).
Proof. reflexivity. Qed.

Lemma run_set_handle h s : run (set_handle h) s = (inr tt, mkSt (trace s) h).
Proof. reflexivity. Qed.

Lemma prints_ret : prints (ret tt) [].
Proof. intros [t h]. rewrite run_ret. simpl. now rewrite app_nil_r. Qed.

Lemma prints_print e : prints (print e) [e].
Proof. intros s. apply run_print. Qed.

Lemma prints_seq (a b : M unit) ea eb :
  prints a ea -> prints b eb -> prints (a ;; b) (ea ++ eb).
Proof.
  intros Ha Hb s. rewrite run_bind, Ha, Hb. simpl. now rewrite app_assoc.
Qed.

Lemma prints_when (b : bool) c evs :
  prints c evs -> prints (when b c) (if b then evs else []).
Proof. destruct b; intros H; [exact H | exact prints_ret]. Qed.


(** ** Ranges of positive numbers and the rows of a rectangle *)

Lemma pos_seq_length start n : length (pos_seq start n) = n.
Proof. revert start. induction n; intros; simpl; [reflexivity | now rewrite IHn]. Qed.

Lemma pos_seq_nth_error n :
  forall start i, (i < n)%nat ->
    nth_error (pos_seq start n) i = Some (Z.to_pos (Zpos start + Z.of_nat i)).
Proof.
  induction n as [|n IH]; intros start i Hi; [lia|].
  destruct i as [|i]; simpl pos_seq; cbn [nth_error].
  - reflexivity.
  - rewrite IH by lia. f_equal. lia.
Qed.

Lemma pos_range_length lo hi :
  length (pos_range lo hi) = Z.to_nat (Zpos hi + 1 - Zpos lo).
Proof. apply pos_seq_length. Qed.

Lemma pos_range_nth_error lo hi p :
  (lo <= p <= hi)%positive ->
  nth_error (pos_range lo hi) (Z.to_nat (Zpos p - Zpos lo)) = Some p.
Proof.
  intros H. unfold pos_range. rewrite pos_seq_nth_error by lia. f_equal. lia.
Qed.

Lemma iter_rows_length ws r1 r2 c1 c2 :
  length (iter_rows ws r1 r2 c1 c2) = Z.to_nat (Zpos r2 + 1 - Zpos r1).
Proof. unfold iter_rows. now rewrite length_map, pos_range_length. Qed.

Lemma iter_rows_concat ws :
  concat (iter_rows_all ws)
  = map (fun rc => value_at ws (fst rc) (snd rc)) (grid_cells ws).
Proof.
  unfold iter_rows_all, iter_rows, grid_cells.
  induction (pos_range 1 (max_row ws)) as [|r rows IH]; [reflexivity|].
  cbn [map concat list_prod]. rewrite map_app, IH, map_map. reflexivity.
Qed.

Lemma grid_cells_length ws :
  len (grid_cells ws) = Zpos (max_row ws) * Zpos (max_column ws).
Proof.
  unfold len, grid_cells. rewrite length_prod, !pos_range_length. lia.
Qed.

(** ** What examining one worksheet prints *)

Lemma detail_reports_nothing evs :
  forallb is_detail evs = true ->
  reported_ranges evs = [] /\ signals_empty evs = false.
Proof.
  induction evs as [|e evs IH]; [now split|].
  cbn [forallb]. intros H. apply andb_true_iff in H as [He Hevs].
  destruct (IH Hevs) as [IH1 IH2].
  unfold reported_ranges, signals_empty in *. cbn [flat_map existsb].
  rewrite IH1, IH2. destruct e; try discriminate He; now split.
Qed.

Section WorksheetFacts.
Variable float_repr : spec_float -> string.

Lemma print_rows_prints data :
  forall total i, exists evs,
    prints (print_rows total i data) evs /\ forallb is_detail evs = true.
Proof.
  induction data as [|row rest IH]; intros total i.
  - exists []. split; [exact prints_ret | reflexivity].
  - destruct (IH total (i + 1)) as (evs & Hp & Hd). cbn [print_rows].
    set (first := if i =? 0 then print (EvHeaderRow (Py.join " | " row))
                  else print (EvDataRow i (Py.join " | " row))).
    assert (Hfirst : exists e, prints first [e] /\ is_detail e = true).
    { subst first. destruct (i =? 0); eexists; split;
        try apply prints_print; reflexivity. }
    destruct Hfirst as (e & He & Hed).
    destruct (14 <=? i).
    + eexists. split.
      * apply prints_seq; [exact He|]. apply prints_when, prints_print.
      * cbn [app forallb]. rewrite Hed. now destruct (0 <? total - i - 1).
    + exists ([e] ++ evs)%list. split; [now apply prints_seq|].
      cbn [app forallb]. now rewrite Hed, Hd.
Qed.

Lemma examine_worksheet_empty sheet_index ws :
  is_empty_worksheet ws = true ->
  prints (examine_worksheet float_repr sheet_index ws)
         [EvSheetHeader sheet_index (title ws); EvEmptyStatus].
Proof.
  intros H. unfold examine_worksheet. rewrite H.
  apply (prints_seq _ _ [_] [_]); apply prints_print.
Qed.

Lemma examine_worksheet_non_empty sheet_index ws :
  is_empty_worksheet ws = false ->
  exists details,
    prints (examine_worksheet float_repr sheet_index ws)
           (EvSheetHeader sheet_index (title ws)
            :: EvUsedRange (a1_range (max_column ws) (max_row ws))
            :: EvDimensions (max_row ws) (max_column ws)
            :: details)
    /\ forallb is_detail details = true.
Proof.
  intros H. unfold examine_worksheet. rewrite H. cbv zeta.
  set (data := map (map (display_cell float_repr)) _).
  destruct (print_rows_prints data (len data) 0) as (rows & Hrows & Hdet).
  assert (Hp : exists details,
             prints
               (print (EvSheetHeader sheet_index (title ws)) ;;
                print (EvUsedRange (a1_range (max_column ws) (max_row ws))) ;;
                print (EvDimensions (max_row ws) (max_column ws)) ;;
                print (EvDataContent (len data)) ;;
                print_rows (len data) 0 data ;;
                when ((1 <=? max_row ws) && (1 <=? max_column ws))%positive
                     (print (EvSampleCell "A1" (py_str float_repr (value_at ws 1 1)))) ;;
                when ((2 <=? max_row ws) && (1 <=? max_column ws))%positive
                     (print (EvSampleCell "A2" (py_str float_repr (value_at ws 2 1)))) ;;
                when ((1 <=? max_row ws) && (2 <=? max_column ws))%positive
                     (print (EvSampleCell "B1" (py_str float_repr (value_at ws 1 2)))) ;;
                when ((2 <=? max_row ws) && (2 <=? max_column ws))%positive
                     (print (EvSampleCell "B2" (py_str float_repr (value_at ws 2 2)))))
               ([EvSheetHeader sheet_index (title ws)]
                ++ [EvUsedRange (a1_range (max_column ws) (max_row ws))]
                ++ [EvDimensions (max_row ws) (max_column ws)]
                ++ details)%list
             /\ forallb is_detail details = true).
  { eexists. split.
    - do 4 (eapply prints_seq; [apply prints_print|]).
      eapply prints_seq; [exact Hrows|].
      do 3 (eapply prints_seq; [apply prints_when, prints_print|]).
      apply prints_when, prints_print.
    - cbn [app forallb is_detail andb]. rewrite !forallb_app, Hdet.
      repeat match goal with |- context [if ?b then _ else _] => destruct b end;
        reflexivity. }
  exact Hp.
Qed.

(** Examining a worksheet only prints, whatever the worksheet. *)
Lemma examine_worksheet_prints sheet_index ws :
  exists evs, prints (examine_worksheet float_repr sheet_index ws) evs.
Proof.
  destruct (is_empty_worksheet ws) eqn:E.
  - eexists. now apply examine_worksheet_empty.
  - destruct (examine_worksheet_non_empty sheet_index ws E) as (d & Hd & _).
    eexists. exact Hd.
Qed.

Lemma for_enumerate_prints (l : list Worksheet) :
  forall start, exists evs,
    prints (for_enumerate start l (examine_worksheet float_repr)) evs.
Proof.
  induction l as [|ws l IH]; intros start.
  - exists []. exact prints_ret.
  - destruct (examine_worksheet_prints start ws) as (e1 & H1).
    destruct (IH (start + 1)) as (e2 & H2).
    exists (e1 ++ e2)%list. cbn [for_enumerate]. now apply prints_seq.
Qed.

End WorksheetFacts.

Lemma is_empty_worksheet_iff ws :
  is_empty_worksheet ws = true <->
  max_row ws = 1%positive /\ max_column ws = 1%positive /\ value_at ws 1 1 = VNone.
Proof.
  unfold is_empty_worksheet.
  destruct (Pos.eqb_spec (max_row ws) 1) as [Hr|Hr];
    destruct (Pos.eqb_spec (max_column ws) 1) as [Hc|Hc]; cbn [andb];
    try (split; [discriminate | tauto]).
  destruct (value_at ws 1 1); cbn [is_None];
    split; intros H; try discriminate; try tauto;
    destruct H as (_ & _ & H); discriminate.
Qed.

Lemma get_workbook_metadata_entries file_path wb :
  md_worksheets (get_workbook_metadata file_path wb) = map ws_info_of (worksheets wb).
Proof.
  unfold get_workbook_metadata. cbn [md_worksheets].
  assert (H : forall l acc,
             fold_left (fun entries ws => (entries ++ [ws_info_of ws])%list) l acc
             = (acc ++ map ws_info_of l)%list).
  { induction l as [|w l IH]; intros acc; cbn [fold_left map].
    - now rewrite app_nil_r.
    - now rewrite IH, <- app_assoc. }
  now rewrite H.
Qed.

(** ** The used range *)

(** C1.  For a worksheet that is not reported as empty, examining it reports
    exactly one used range, and that range is the full nominal grid:
    [A1:] followed by the letters of the last nominal column and the number
    of the last nominal row, whatever the cells hold.  The metadata entry of
    any worksheet of a workbook carries the same range. *)
Theorem used_range_is_nominal_bounds
    (float_repr : spec_float -> string) (sheet_index : Z) (ws : Worksheet) (s : St) :
  is_empty_worksheet ws = false ->
  let full := "A1:" ++ Column.get_column_letter (max_column ws)
                    ++ Py.str_int (Zpos (max_row ws)) in
  (exists evs,
      run (examine_worksheet float_repr sheet_index ws) s
      = (inr tt, mkSt (trace s ++ evs) (handle s))
      /\ reported_ranges evs = [full]
      /\ In (EvDimensions (max_row ws) (max_column ws)) evs)
  /\ (forall file_path wb,
         In ws (worksheets wb) ->
         In (mkWsInfo (title ws) full (max_row ws) (max_column ws))
            (md_worksheets (get_workbook_metadata file_path wb))).
Proof.
  intros H full. split.
  - destruct (examine_worksheet_non_empty float_repr sheet_index ws H)
      as (details & Hp & Hd).
    eexists. split; [apply Hp|].
    destruct (detail_reports_nothing _ Hd) as [Hr _].
    split.
    + unfold reported_ranges in *. cbn [flat_map app]. now rewrite Hr.
    + right. right. now left.
  - intros file_path wb Hin. rewrite get_workbook_metadata_entries.
    apply (in_map ws_info_of) in Hin. exact Hin.
Qed.

Lemma used_range_is_nominal_bounds_witness :
  exists evs,
    run (examine_worksheet no_repr 1 sparse_sheet) initial
    = (inr tt, mkSt (trace initial ++ evs) (handle initial))
    /\ reported_ranges evs = ["A1:C5"]
    /\ In (EvDimensions 5 3) evs.
Proof.
  exact (proj1 (used_range_is_nominal_bounds no_repr 1 sparse_sheet initial eq_refl)).
Defined.

(** C2.  Examining a worksheet signals an empty worksheet exactly when the
    nominal grid is one row by one column and its single cell is absent.  A
    worksheet so signalled gets no used range; every other worksheet, however
    few of its cells are populated, gets its full nominal grid as used
    range. *)
Theorem empty_worksheet_iff_single_absent_cell
    (float_repr : spec_float -> string) (sheet_index : Z) (ws : Worksheet) (s : St) :
  exists evs,
    run (examine_worksheet float_repr sheet_index ws) s
    = (inr tt, mkSt (trace s ++ evs) (handle s))
    /\ (signals_empty evs = true <->
        max_row ws = 1%positive /\ max_column ws = 1%positive
        /\ value_at ws 1 1 = VNone)
    /\ (signals_empty evs = true -> reported_ranges evs = [])
    /\ (signals_empty evs = false ->
        reported_ranges evs = [a1_range (max_column ws) (max_row ws)]).
Proof.
  destruct (is_empty_worksheet ws) eqn:E.
  - eexists. split; [apply (examine_worksheet_empty float_repr _ _ E)|].
    split; [|split].
    + split; intros _; [now apply is_empty_worksheet_iff | reflexivity].
    + reflexivity.
    + discriminate.
  - destruct (examine_worksheet_non_empty float_repr sheet_index ws E)
      as (details & Hp & Hd).
    destruct (detail_reports_nothing _ Hd) as [Hr He].
    assert (Hsig : signals_empty
                     (EvSheetHeader sheet_index (title ws)
                      :: EvUsedRange (a1_range (max_column ws) (max_row ws))
                      :: EvDimensions (max_row ws) (max_column ws) :: details)
                   = false) by exact He.
    eexists. split; [apply Hp|]. rewrite Hsig.
    split; [|split].
    + split; [discriminate|]. intros H. apply is_empty_worksheet_iff in H. congruence.
    + discriminate.
    + intros _. unfold reported_ranges in *. cbn [flat_map app]. now rewrite Hr.
Qed.

(** ** The simulated metadata query *)

(** C5.  The worksheet list of the metadata has one entry per worksheet, in
    workbook order, each carrying the worksheet's title and nominal bounds.
    An empty worksheet is not left out: its entry has used range [A1:A1] and
    one row and one column. *)
Theorem metadata_lists_every_worksheet (file_path : string) (wb : Workbook) :
  let entries := md_worksheets (get_workbook_metadata file_path wb) in
  length entries = length (worksheets wb)
  /\ map name entries = map title (worksheets wb)
  /\ forall i ws,
      nth_error (worksheets wb) i = Some ws ->
      exists e,
        nth_error entries i = Some e
        /\ name e = title ws
        /\ info_max_row e = max_row ws
        /\ info_max_column e = max_column ws
        /\ (is_empty_worksheet ws = true ->
            used_range e = "A1:A1"
            /\ info_max_row e = 1%positive /\ info_max_column e = 1%positive).
Proof.
  intros entries. subst entries. rewrite get_workbook_metadata_entries.
  split; [apply length_map|]. split; [now rewrite map_map|].
  intros i ws Hi. exists (ws_info_of ws).
  split; [now apply map_nth_error|].
  do 3 (split; [reflexivity|]).
  intros He. apply is_empty_worksheet_iff in He as (Hr & Hc & _).
  cbn [ws_info_of used_range info_max_row info_max_column].
  rewrite Hr, Hc. repeat split.
Qed.

Lemma metadata_lists_every_worksheet_witness :
  exists e,
    nth_error (md_worksheets (get_workbook_metadata "test.xlsx" two_sheets)) 1 = Some e
    /\ name e = "Empty"
    /\ info_max_row e = 1%positive
    /\ info_max_column e = 1%positive
    /\ (is_empty_worksheet empty_sheet = true ->
        used_range e = "A1:A1"
        /\ info_max_row e = 1%positive /\ info_max_column e = 1%positive).
Proof.
  exact (proj2 (proj2 (metadata_lists_every_worksheet "test.xlsx" two_sheets))
               1%nat empty_sheet eq_refl).
Defined.

(** ** The simulated range read *)

Lemma sample_row (ws : Worksheet) (rows cols r : positive) :
  (r <= rows)%positive ->
  nth_error (map (map json_cell) (iter_rows ws 1 rows 1 cols)) (Pos.to_nat r - 1)
  = Some (map json_cell (map (fun c => value_at ws r c) (pos_range 1 cols))).
Proof.
  intros H. unfold iter_rows.
  replace (Pos.to_nat r - 1)%nat with (Z.to_nat (Zpos r - 1)) by lia.
  rewrite nth_error_map, nth_error_map, (pos_range_nth_error 1 rows r) by lia.
  reflexivity.
Qed.

Lemma sample_cell (ws : Worksheet) (cols r c : positive) :
  (c <= cols)%positive ->
  nth_error (map json_cell (map (fun c => value_at ws r c) (pos_range 1 cols)))
            (Pos.to_nat c - 1)
  = Some (json_cell (value_at ws r c)).
Proof.
  intros H.
  replace (Pos.to_nat c - 1)%nat with (Z.to_nat (Zpos c - 1)) by lia.
  rewrite nth_error_map, nth_error_map, (pos_range_nth_error 1 cols c) by lia.
  reflexivity.
Qed.

Lemma sample_rows_length (ws : Worksheet) (rows cols : positive) :
  len (map (map json_cell) (iter_rows ws 1 rows 1 cols)) = Zpos rows.
Proof. unfold len. rewrite length_map, iter_rows_length. lia. Qed.

Lemma sample_rows_width (ws : Worksheet) (rows cols : positive) :
  Forall (fun row => len row = Zpos cols)
         (map (map json_cell) (iter_rows ws 1 rows 1 cols)).
Proof.
  unfold iter_rows. rewrite map_map. apply Forall_forall. intros row Hin.
  apply in_map_iff in Hin as (r & <- & _).
  unfold len. rewrite !length_map, pos_range_length. lia.
Qed.




(** ** White space *)

Lemma lstrip_blank s :
  forallb Py.isspace (list_ascii_of_string s) = true -> Py.lstrip s = "".
Proof.
  induction s as [|c s IH]; [reflexivity|].
  cbn [list_ascii_of_string forallb Py.lstrip]. intros H.
  apply andb_true_iff in H as [Hc Hs]. rewrite Hc. auto.
Qed.

Lemma lstrip_head s :
  Py.lstrip s = ""
  \/ exists c r, Py.lstrip s = String c r /\ Py.isspace c = false.
Proof.
  induction s as [|c s IH]; [now left|].
  cbn [Py.lstrip]. destruct (Py.isspace c) eqn:E; [exact IH|].
  right. now exists c, s.
Qed.

Lemma lstrip_empty_blank s :
  Py.lstrip s = "" -> forallb Py.isspace (list_ascii_of_string s) = true.
Proof.
  induction s as [|c s IH]; [reflexivity|].
  cbn [list_ascii_of_string forallb Py.lstrip].
  destruct (Py.isspace c); [exact IH | discriminate].
Qed.

Lemma rstrip_head c r : Py.isspace c = false -> Py.rstrip (String c r) <> "".
Proof.
  intros H. cbn [Py.rstrip]. rewrite H. destruct (Py.rstrip r); discriminate.
Qed.

(** A string strips to nothing exactly when it holds white space only. *)
Lemma strip_empty_iff s :
  Py.strip s = "" <-> forallb Py.isspace (list_ascii_of_string s) = true.
Proof.
  unfold Py.strip. split.
  - intros H. apply lstrip_empty_blank.
    destruct (lstrip_head s) as [E|(c & r & E & Hc)]; [exact E|].
    rewrite E in H. now apply rstrip_head in H.
  - intros H. now rewrite (lstrip_blank s H).
Qed.

Lemma truthy_eqb s : Py.truthy s = negb (String.eqb s "").
Proof. destruct s; reflexivity. Qed.

(** ** The summary statistics *)

Lemma fold_left_add l : forall a, fold_left Z.add l a = a + fold_right Z.add 0 l.
Proof.
  induction l as [|x l IH]; intros a; cbn [fold_left fold_right]; [lia|].
  rewrite IH. lia.
Qed.

Lemma total_cells_spec wb : total_cells wb = spec_totalCells wb.
Proof. unfold total_cells, spec_totalCells. now rewrite fold_left_add. Qed.

Section CountFacts.
Context {A : Type} (p : A -> bool).

Lemma count_fold (row : list A) :
  forall n, fold_left (fun n x => if p x then n + 1 else n) row n
            = n + len (filter p row).
Proof.
  unfold len. induction row as [|x row IH]; intros n; cbn [fold_left filter].
  - simpl. lia.
  - rewrite IH. destruct (p x); cbn [length]; lia.
Qed.

Lemma count_fold_rows (rows : list (list A)) :
  forall n,
    fold_left (fun n row => fold_left (fun n x => if p x then n + 1 else n) row n)
              rows n
    = n + len (filter p (concat rows)).
Proof.
  unfold len. induction rows as [|row rows IH]; intros n; cbn [fold_left concat].
  - simpl. lia.
  - rewrite IH, count_fold, filter_app, length_app. unfold len. lia.
Qed.

Lemma filter_map_length {B} (f : B -> A) (l : list B) :
  len (filter p (map f l)) = len (filter (fun x => p (f x)) l).
Proof.
  unfold len. induction l as [|x l IH]; [reflexivity|].
  cbn [map filter]. destruct (p (f x)); cbn [length]; lia.
Qed.

Lemma filter_length_bound (l : list A) : 0 <= len (filter p l) <= len l.
Proof. unfold len. pose proof (filter_length_le p l). lia. Qed.
End CountFacts.

Section SummaryFacts.
Variable float_repr : spec_float -> string.

Lemma counts_as_non_empty_contributes v :
  counts_as_non_empty float_repr v = contributes float_repr v.
Proof.
  unfold counts_as_non_empty, contributes. rewrite truthy_eqb.
  destruct v; reflexivity.
Qed.

(** The cells one worksheet adds to the count. *)
Lemma worksheet_count ws :
  len (filter (counts_as_non_empty float_repr) (concat (iter_rows_all ws)))
  = len (filter (fun rc => contributes float_repr (value_at ws (fst rc) (snd rc)))
                (grid_cells ws)).
Proof.
  rewrite iter_rows_concat, filter_map_length. f_equal.
  apply filter_ext. intros rc. apply counts_as_non_empty_contributes.
Qed.

Lemma non_empty_cells_spec wb :
  non_empty_cells float_repr wb = spec_nonEmptyCells float_repr wb.
Proof.
  unfold non_empty_cells, spec_nonEmptyCells.
  enough (H : forall l n,
             fold_left
               (fun n ws =>
                  fold_left
                    (fun n row =>
                       fold_left
                         (fun n cell =>
                            if counts_as_non_empty float_repr cell then n + 1 else n)
                         row n)
                    (iter_rows_all ws) n)
               l n
             = n + fold_right Z.add 0
                     (map (fun ws =>
                             len (filter
                                    (fun rc =>
                                       contributes float_repr
                                                   (value_at ws (fst rc) (snd rc)))
                                    (grid_cells ws)))
                          l))
    by (rewrite H; lia).
  induction l as [|ws l IH]; intros n; cbn [fold_left map fold_right]; [lia|].
  rewrite count_fold_rows, worksheet_count, IH. lia.
Qed.

Lemma spec_counts_bounded wb :
  0 <= spec_nonEmptyCells float_repr wb <= spec_totalCells wb.
Proof.
  unfold spec_nonEmptyCells, spec_totalCells.
  induction (worksheets wb) as [|ws l IH]; cbn [map fold_right]; [lia|].
  pose proof (filter_length_bound
                (fun rc => contributes float_repr (value_at ws (fst rc) (snd rc)))
                (grid_cells ws)) as Hb.
  rewrite grid_cells_length in Hb. lia.
Qed.

End SummaryFacts.

Lemma run_true_div a b s :
  b <> 0 -> run (true_div a b) s = (inr (inject_Z a / inject_Z b)%Q, s).
Proof.
  intros H. unfold true_div. destruct (Z.eqb_spec b 0); [contradiction | reflexivity].
Qed.

Lemma run_true_div_zero a s : run (true_div a 0) s = (inl ZeroDivisionError, s).
Proof. reflexivity. Qed.

(** C3.  The total is the sum over the worksheets of nominal rows times
    nominal columns.  The count of non-empty cells is the number of cells of
    the nominal grids that are not absent and whose text is not empty once
    trimmed; an absent cell does not count, and neither does a cell holding
    an empty string or white space only. *)
Theorem summary_counts_match_spec
    (float_repr : spec_float -> string) (wb : Workbook) :
  total_cells wb = spec_totalCells wb
  /\ non_empty_cells float_repr wb = spec_nonEmptyCells float_repr wb
  /\ counts_as_non_empty float_repr VNone = false
  /\ (forall s,
         forallb Py.isspace (list_ascii_of_string s) = true ->
         counts_as_non_empty float_repr (VStr s) = false)
  /\ (forall s,
         forallb Py.isspace (list_ascii_of_string s) = false ->
         counts_as_non_empty float_repr (VStr s) = true).
Proof.
  split; [apply total_cells_spec|].
  split; [apply non_empty_cells_spec|].
  split; [reflexivity|].
  split; intros s H; unfold counts_as_non_empty; cbn [is_None negb andb py_str].
  - apply strip_empty_iff in H. now rewrite H.
  - destruct (Py.strip s) eqn:E; [|reflexivity].
    apply strip_empty_iff in E. congruence.
Qed.

(** C10.  The count of non-empty cells never exceeds the total, and when the
    total is positive the density is computed and lies between 0 and 1. *)
Theorem non_empty_at_most_total
    (float_repr : spec_float -> string) (wb : Workbook) (s : St) :
  0 <= non_empty_cells float_repr wb <= total_cells wb
  /\ (0 < total_cells wb ->
      exists d,
        run (density float_repr wb) s = (inr d, s) /\ (0 <= d)%Q /\ (d <= 1)%Q).
Proof.
  pose proof (spec_counts_bounded float_repr wb) as Hb.
  rewrite <- non_empty_cells_spec, <- total_cells_spec in Hb.
  split; [exact Hb|]. intros Hpos.
  eexists. split; [unfold density; apply run_true_div; lia|].
  destruct (total_cells wb) as [|t|t]; try lia.
  unfold Qle, Qdiv, Qinv, Qmult, inject_Z. cbn [Qnum Qden]. split; lia.
Qed.

Lemma non_empty_at_most_total_witness :
  exists d,
    run (density no_repr two_sheets) initial = (inr d, initial)
    /\ (0 <= d)%Q /\ (d <= 1)%Q.
Proof.
  apply (proj2 (non_empty_at_most_total no_repr two_sheets initial)).
  vm_compute. reflexivity.
Defined.

(** ** Dates *)















(** ** The workbook handle and the division *)

Section HandleFacts.
Variable float_repr : spec_float -> string.
Variable fs : string -> exn + Workbook.

Lemma total_cells_zero wb : total_cells wb = 0 -> worksheets wb = [].
Proof.
  rewrite total_cells_spec. unfold spec_totalCells.
  destruct (worksheets wb) as [|ws l]; [reflexivity|].
  cbn [map fold_right]. intros H. exfalso.
  assert (0 <= fold_right Z.add 0
                 (map (fun ws => Zpos (max_row ws) * Zpos (max_column ws)) l)).
  { clear. induction l; cbn [map fold_right]; lia. }
  lia.
Qed.

Lemma summary_prints wb :
  total_cells wb <> 0 -> exists evs, prints (summary float_repr wb) evs.
Proof.
  intros H. eexists. intros s. unfold summary, density.
  rewrite run_bind, run_print, run_bind, run_print, run_bind.
  rewrite run_true_div by exact H. rewrite run_print.
  cbn [trace handle]. rewrite <- !app_assoc. reflexivity.
Qed.

Lemma summary_raises wb s :
  total_cells wb = 0 ->
  run (summary float_repr wb) s
  = (inl ZeroDivisionError,
     mkSt (trace s ++ [EvTotalCells 0; EvNonEmptyCells (non_empty_cells float_repr wb)])
          (handle s)).
Proof.
  intros H. unfold summary, density. rewrite H.
  rewrite run_bind, run_print, run_bind, run_print, run_bind, run_true_div_zero.
  cbn [trace handle]. now rewrite <- app_assoc.
Qed.

Lemma run_json_dumps r s :
  run (json_dumps r) s = (if dumps_ok r then inr r else inl TypeError, s).
Proof. unfold json_dumps. now destruct (dumps_ok r). Qed.

(** The simulation prints the metadata and the call of the read; the result
    of the read follows when it can be serialised, and [TypeError] is raised
    in its place when it cannot. *)
Lemma tool_simulation_run file_path wb first_ws rest s :
  worksheets wb = first_ws :: rest ->
  run (tool_simulation file_path wb) s
  = (if dumps_ok (read_data_from_excel file_path first_ws)
     then inr tt else inl TypeError,
     mkSt (trace s
           ++ [EvMetadata (get_workbook_metadata file_path wb);
               EvReadCall (title first_ws)
                          (rr_range (read_data_from_excel file_path first_ws))]
           ++ (if dumps_ok (read_data_from_excel file_path first_ws)
               then [EvReadResult (read_data_from_excel file_path first_ws)]
               else []))
          (handle s)).
Proof.
  intros Hws. unfold tool_simulation. rewrite Hws. cbv zeta.
  rewrite run_bind, run_print, run_bind, run_print, run_bind, run_json_dumps.
  cbn [trace handle].
  destruct (dumps_ok (read_data_from_excel file_path first_ws)).
  - rewrite run_print. cbn [trace handle]. now rewrite <- !app_assoc.
  - now rewrite app_nil_r, <- app_assoc.
Qed.

(** When nothing goes wrong the handle is closed at the end of the [try]
    block. *)
Lemma try_block_success file_path wb t first_ws rest :
  fs file_path = inr wb -> active wb = Some t ->
  worksheets wb = first_ws :: rest ->
  dumps_ok (read_data_from_excel file_path first_ws) = true ->
  exists evs, forall s,
    run (try_block float_repr fs file_path) s
    = (inr tt, mkSt (trace s ++ evs) Closed).
Proof.
  intros Hfs Hact Hws Hd.
  assert (Htot : total_cells wb <> 0).
  { intros Hz. apply total_cells_zero in Hz. congruence. }
  destruct (for_enumerate_prints float_repr (worksheets wb) 1) as (e1 & H1).
  destruct (summary_prints wb Htot) as (e2 & H2).
  eexists. intros s. unfold try_block, load_workbook, active_title.
  rewrite Hfs, run_bind, run_bind, run_set_handle, run_ret.
  rewrite run_bind, run_print, run_bind, run_print.
  rewrite Hact, run_bind, run_ret, run_bind, run_print, run_bind, run_print.
  rewrite run_bind, H1, run_bind, H2, run_bind.
  rewrite (tool_simulation_run file_path wb first_ws rest _ Hws), Hd.
  rewrite run_set_handle.
  cbn [trace handle]. rewrite <- !app_assoc. reflexivity.
Qed.

(** When the result of the read cannot be serialised the block is left by
    the [TypeError] of [json.dumps], with the handle still open. *)
Lemma try_block_type_error file_path wb t first_ws rest :
  fs file_path = inr wb -> active wb = Some t ->
  worksheets wb = first_ws :: rest ->
  dumps_ok (read_data_from_excel file_path first_ws) = false ->
  exists evs, forall s,
    run (try_block float_repr fs file_path) s
    = (inl TypeError, mkSt (trace s ++ evs) Opened).
Proof.
  intros Hfs Hact Hws Hd.
  assert (Htot : total_cells wb <> 0).
  { intros Hz. apply total_cells_zero in Hz. congruence. }
  destruct (for_enumerate_prints float_repr (worksheets wb) 1) as (e1 & H1).
  destruct (summary_prints wb Htot) as (e2 & H2).
  eexists. intros s. unfold try_block, load_workbook, active_title.
  rewrite Hfs, run_bind, run_bind, run_set_handle, run_ret.
  rewrite run_bind, run_print, run_bind, run_print.
  rewrite Hact, run_bind, run_ret, run_bind, run_print, run_bind, run_print.
  rewrite run_bind, H1, run_bind, H2, run_bind.
  rewrite (tool_simulation_run file_path wb first_ws rest _ Hws), Hd.
  cbn [trace handle]. rewrite <- !app_assoc. reflexivity.
Qed.

(** When the total is zero the block is left by the exception raised at the
    division, with the handle still open. *)
Lemma try_block_zero_total file_path wb t :
  fs file_path = inr wb -> active wb = Some t -> total_cells wb = 0 ->
  exists evs, forall s,
    run (try_block float_repr fs file_path) s
    = (inl ZeroDivisionError, mkSt (trace s ++ evs) Opened).
Proof.
  intros Hfs Hact Htot.
  eexists. intros s. unfold try_block, load_workbook, active_title.
  rewrite Hfs, run_bind, run_bind, run_set_handle, run_ret.
  rewrite run_bind, run_print, run_bind, run_print.
  rewrite Hact, run_bind, run_ret, run_bind, run_print, run_bind, run_print.
  rewrite (total_cells_zero wb Htot). cbn [for_enumerate].
  rewrite run_bind, run_ret, run_bind, summary_raises by exact Htot.
  cbn [trace handle]. rewrite <- !app_assoc. reflexivity.
Qed.

Lemma handle_closed_on_success file_path wb t first_ws rest :
  fs file_path = inr wb -> active wb = Some t ->
  worksheets wb = first_ws :: rest ->
  dumps_ok (read_data_from_excel file_path first_ws) = true ->
  handle (snd (run (examine_excel_file float_repr fs file_path) initial)) = Closed.
Proof.
  intros Hfs Hact Hws Hd.
  destruct (try_block_success file_path wb t first_ws rest Hfs Hact Hws Hd)
    as (evs & H).
  unfold examine_excel_file.
  rewrite run_bind, run_print, run_bind, run_catch, H, run_print. reflexivity.
Qed.

Lemma handle_open_after_type_error file_path wb t first_ws rest :
  fs file_path = inr wb -> active wb = Some t ->
  worksheets wb = first_ws :: rest ->
  dumps_ok (read_data_from_excel file_path first_ws) = false ->
  handle (snd (run (examine_excel_file float_repr fs file_path) initial)) = Opened.
Proof.
  intros Hfs Hact Hws Hd.
  destruct (try_block_type_error file_path wb t first_ws rest Hfs Hact Hws Hd)
    as (evs & H).
  unfold examine_excel_file.
  rewrite run_bind, run_print, run_bind, run_catch, H.
  cbn [handler]. rewrite run_print, run_print. reflexivity.
Qed.

Lemma handle_open_after_zero_division file_path wb t :
  fs file_path = inr wb -> active wb = Some t -> total_cells wb = 0 ->
  handle (snd (run (examine_excel_file float_repr fs file_path) initial)) = Opened.
Proof.
  intros Hfs Hact Htot.
  destruct (try_block_zero_total file_path wb t Hfs Hact Htot) as (evs & H).
  unfold examine_excel_file.
  rewrite run_bind, run_print, run_bind, run_catch, H.
  cbn [handler]. rewrite run_print, run_print. reflexivity.
Qed.

End HandleFacts.

(** C4.  The density is the count of non-empty cells divided by the total,
    and when the total is zero it is to be reported as 0 without failing.
    On a workbook without any worksheet the total is zero and the division
    raises [ZeroDivisionError]: no density is printed, the error is. *)
Theorem density_of_zero_total_raises :
  total_cells chart_only = 0
  /\ run (density no_repr chart_only) initial = (inl ZeroDivisionError, initial)
  /\ trace (snd (run (examine_excel_file no_repr (fs_with chart_only) "test.xlsx")
                     initial))
     = [EvBanner "test.xlsx";
        EvFilePath "test.xlsx"; EvTotalWorksheets 0; EvActiveSheet "Chart1";
        EvWorksheetNames [];
        EvTotalCells 0; EvNonEmptyCells 0;
        EvError ZeroDivisionError;
        EvCompleted].
Proof. repeat split. Qed.

(** C7.  The workbook handle is to be closed on every exit path.  On the
    workbook without any worksheet the script opens the handle, fails at the
    division, handles the error and completes with the handle still open. *)
Theorem handle_left_open_on_error :
  let final :=
    snd (run (examine_excel_file no_repr (fs_with chart_only) "test.xlsx") initial) in
  handle final = Opened
  /\ In (EvError ZeroDivisionError) (trace final)
  /\ last (trace final) EvCompleted = EvCompleted.
Proof.
  split; [reflexivity|]. split; [|reflexivity].
  vm_compute. tauto.
Qed.

(** ** The scenarios of the specification *)

Example get_column_letter_samples :
  map Column.get_column_letter [1; 26; 27; 52; 702; 703; 16384]%positive
  = ["A"; "Z"; "AA"; "AZ"; "ZZ"; "AAA"; "XFD"].
Proof. reflexivity. Qed.

Example parseColumn_samples :
  map Column.parseColumn ["A"; "Z"; "AA"; "XFD"; ""; "A1"; "a"]
  = [inr 1; inr 26; inr 27; inr 16384; inl Column.InvalidAddress;
     inl Column.InvalidAddress; inl Column.InvalidAddress]%positive.
Proof. reflexivity. Qed.

Example strip_samples :
  map Py.strip ["  a b  "; "   "; ""; "x"] = ["a b"; ""; ""; "x"].
Proof. reflexivity. Qed.

(** A two-by-two sheet with three non-blank cells and one absent cell. *)
Example density_three_of_four :
  let ws := mkWorksheet "Sheet" 2 2
              (fun r c => if ((r =? 2) && (c =? 2))%positive then VNone
                          else VInt (Zpos r + Zpos c)) in
  let wb := mkWorkbook [ws] (Some "Sheet") in
  total_cells wb = 4
  /\ non_empty_cells no_repr wb = 3
  /\ run (density no_repr wb) initial = (inr (3 # 4)%Q, initial).
Proof. repeat split. Qed.

Example two_sheets_metadata :
  get_workbook_metadata "test.xlsx" two_sheets
  = mkMetadata "test.xlsx"
      [mkWsInfo "Sample Data" "A1:C5" 5 3; mkWsInfo "Empty" "A1:A1" 1 1].
Proof. reflexivity. Qed.

Example two_sheets_closes_handle :
  handle (snd (run (examine_excel_file no_repr (fs_with two_sheets) "test.xlsx")
                   initial)) = Closed.
Proof. reflexivity. Qed.

Example missing_file_not_opened :
  snd (run (examine_excel_file no_repr (fs_with two_sheets) "other.xlsx") initial)
  = mkSt [EvBanner "other.xlsx"; EvFileNotFound "other.xlsx"; EvCompleted] NotOpened.
Proof. reflexivity. Qed.

(** * Further properties of the examination script *)

(** ** The rows shown *)

Lemma print_rows_events (data : list (list string)) :
  forall i total,
    i <= 14 -> total = i + len data ->
    prints (print_rows total i data)
           (firstn (Z.to_nat (15 - i)) (numbered_lines i data)
            ++ (if 15 - i <? len data then [EvMoreRows (total - 15)] else [])).
Proof.
  induction data as [|row rest IH]; intros i total Hi Htot.
  - cbn [print_rows numbered_lines]. rewrite firstn_nil.
    replace (15 - i <? len (@nil (list string))) with false
      by (symmetry; apply Z.ltb_ge; unfold len; cbn [length]; lia).
    exact prints_ret.
  - cbn [print_rows numbered_lines].
    assert (Hlen : len (row :: rest) = 1 + len rest)
      by (unfold len; cbn [length]; lia).
    assert (Hfirst : prints
                       (if i =? 0 then print (EvHeaderRow (Py.join " | " row))
                        else print (EvDataRow i (Py.join " | " row)))
                       [row_line i row]).
    { unfold row_line. destruct (i =? 0); apply prints_print. }
    replace (15 - i) with (Z.succ (15 - (i + 1))) at 1 by lia.
    rewrite Z2Nat.inj_succ by lia.
    cbn [firstn app].
    change (row_line i row :: ?l) with ([row_line i row] ++ l)%list.
    apply prints_seq; [exact Hfirst|].
    destruct (Z.leb_spec 14 i) as [H14|H14].
    + assert (i = 14) by lia. subst i. cbn [Z.to_nat firstn app].
      replace (total - 14 - 1) with (total - 15) by lia.
      replace (15 - 14 <? len (row :: rest)) with (0 <? total - 15)
        by (apply eq_true_iff_eq; rewrite !Z.ltb_lt; lia).
      apply prints_when, prints_print.
    + replace (15 - i <? len (row :: rest)) with (15 - (i + 1) <? len rest)
        by (apply eq_true_iff_eq; rewrite !Z.ltb_lt; lia).
      apply IH; lia.
Qed.

(** X1.  The rows of a worksheet are shown in order, the first as header and
    the others with their position, fifteen at most; when there are more,
    one line tells how many were left out, and nothing tells so otherwise. *)
Theorem print_rows_shows_first_fifteen (data : list (list string)) :
  prints (print_rows (len data) 0 data)
         (firstn 15 (numbered_lines 0 data)
          ++ (if 15 <? len data then [EvMoreRows (len data - 15)] else [])).
Proof. apply (print_rows_events data 0 (len data)); lia. Qed.

(** ** The worksheets examined *)

Lemma sheet_headers_app a b :
  sheet_headers (a ++ b) = (sheet_headers a ++ sheet_headers b)%list.
Proof. apply flat_map_app. Qed.

Lemma detail_no_header evs :
  forallb is_detail evs = true -> sheet_headers evs = [].
Proof.
  induction evs as [|e evs IH]; [reflexivity|].
  cbn [forallb]. intros H. apply andb_true_iff in H as [He Hevs].
  unfold sheet_headers in *. cbn [flat_map]. rewrite (IH Hevs).
  destruct e; try discriminate He; reflexivity.
Qed.

Lemma examine_worksheet_header float_repr sheet_index ws :
  exists evs,
    prints (examine_worksheet float_repr sheet_index ws) evs
    /\ sheet_headers evs = [(sheet_index, title ws)].
Proof.
  destruct (is_empty_worksheet ws) eqn:E.
  - eexists. split; [now apply examine_worksheet_empty | reflexivity].
  - destruct (examine_worksheet_non_empty float_repr sheet_index ws E)
      as (details & Hp & Hd).
    eexists. split; [exact Hp|].
    unfold sheet_headers. cbn [flat_map app].
    fold (sheet_headers details). now rewrite (detail_no_header _ Hd).
Qed.

Lemma combine_numbered {A} (f : nat -> Z) (x : A) (xs : list A) :
  combine (map f (seq 0 (S (length xs)))) (x :: xs)
  = (f 0%nat, x) :: combine (map (fun k => f (S k)) (seq 0 (length xs))) xs.
Proof. cbn [seq map combine]. now rewrite <- seq_shift, map_map. Qed.

Lemma for_enumerate_headers float_repr (l : list Worksheet) :
  forall start, exists evs,
    prints (for_enumerate start l (examine_worksheet float_repr)) evs
    /\ sheet_headers evs
       = combine (map (fun k => start + Z.of_nat k) (seq 0 (length l)))
                 (map title l).
Proof.
  induction l as [|ws l IH]; intros start.
  - exists []. split; [exact prints_ret | reflexivity].
  - destruct (examine_worksheet_header float_repr start ws) as (e1 & H1 & Hh1).
    destruct (IH (start + 1)) as (e2 & H2 & Hh2).
    exists (e1 ++ e2)%list. split; [cbn [for_enumerate]; now apply prints_seq|].
    rewrite sheet_headers_app, Hh1, Hh2. cbn [map length].
    rewrite <- (length_map title l), combine_numbered, length_map.
    cbn [app]. rewrite Z.add_0_r. f_equal. f_equal.
    apply map_ext. intros k. lia.
Qed.

(** X2.  The loop over the worksheets prints one header per worksheet, empty
    ones included, in workbook order, numbered 1, 2, 3, ... *)
Theorem every_worksheet_gets_a_numbered_header
    (float_repr : spec_float -> string) (wb : Workbook) :
  exists evs,
    prints (for_enumerate 1 (worksheets wb) (examine_worksheet float_repr)) evs
    /\ sheet_headers evs
       = combine (map (fun k => 1 + Z.of_nat k) (seq 0 (length (worksheets wb))))
                 (map title (worksheets wb)).
Proof. apply for_enumerate_headers. Qed.

(** ** How a run ends *)

Section OutcomeFacts.
Variable float_repr : spec_float -> string.
Variable fs : string -> exn + Workbook.

Lemma total_cells_nonzero wb ws l : worksheets wb = ws :: l -> total_cells wb <> 0.
Proof.
  intros H Hz. apply total_cells_zero in Hz. congruence.
Qed.

Lemma try_block_outcome file_path s :
  exists evs,
    run (try_block float_repr fs file_path) s
    = (fst (try_outcome fs file_path (handle s)),
       mkSt (trace s ++ evs) (snd (try_outcome fs file_path (handle s)))).
Proof.
  unfold try_outcome. destruct (fs file_path) as [e|wb] eqn:Hfs.
  - exists []. unfold try_block, load_workbook. rewrite Hfs, run_bind, run_raise.
    destruct s. cbn [trace handle fst snd]. now rewrite app_nil_r.
  - destruct (active wb) as [t|] eqn:Hact.
    + destruct (worksheets wb) as [|ws l] eqn:Hws.
      * assert (Htot : total_cells wb = 0)
          by (unfold total_cells; now rewrite Hws).
        destruct (try_block_zero_total float_repr fs file_path wb t Hfs Hact Htot)
          as (evs & H).
        exists evs. apply H.
      * destruct (dumps_ok (read_data_from_excel file_path ws)) eqn:Hd.
        -- destruct (try_block_success float_repr fs file_path wb t ws l
                                       Hfs Hact Hws Hd) as (evs & H).
           exists evs. apply H.
        -- destruct (try_block_type_error float_repr fs file_path wb t ws l
                                          Hfs Hact Hws Hd) as (evs & H).
           exists evs. apply H.
    + eexists. unfold try_block, load_workbook, active_title.
      rewrite Hfs, run_bind, run_bind, run_set_handle, run_ret.
      rewrite run_bind, run_print, run_bind, run_print.
      rewrite Hact, run_bind, run_raise.
      cbn [trace handle fst snd]. rewrite <- !app_assoc. reflexivity.
Qed.

Lemma examine_excel_file_outcome file_path s :
  exists evs,
    run (examine_excel_file float_repr fs file_path) s
    = (inr tt,
       mkSt (trace s
             ++ [EvBanner file_path] ++ evs
             ++ match fst (try_outcome fs file_path (handle s)) with
                | inl e => [error_event file_path e]
                | inr _ => []
                end
             ++ [EvCompleted])
            (snd (try_outcome fs file_path (handle s)))).
Proof.
  destruct (try_block_outcome file_path
              (mkSt (trace s ++ [EvBanner file_path]) (handle s))) as (evs & H).
  exists evs. unfold examine_excel_file.
  rewrite run_bind, run_print, run_bind, run_catch, H.
  cbn [trace handle].
  destruct (fst (try_outcome fs file_path (handle s))) as [e|[]].
  - assert (He : run (handler file_path e)
                     (mkSt ((trace s ++ [EvBanner file_path]) ++ evs)
                           (snd (try_outcome fs file_path (handle s))))
                 = (inr tt,
                    mkSt (((trace s ++ [EvBanner file_path]) ++ evs)
                          ++ [error_event file_path e])
                         (snd (try_outcome fs file_path (handle s)))))
      by (destruct e; apply run_print).
    rewrite He, run_print. cbn [trace handle].
    rewrite <- !app_assoc. reflexivity.
  - rewrite run_print. cbn [trace handle app].
    rewrite <- !app_assoc. reflexivity.
Qed.

End OutcomeFacts.

(** X3.  No exception leaves the script: whatever the file system holds, the
    run returns normally, and what it prints starts with the banner and ends
    with the completion notice. *)
Theorem examine_excel_file_always_completes
    (float_repr : spec_float -> string) (fs : string -> exn + Workbook)
    (file_path : string) (s : St) :
  exists evs h,
    run (examine_excel_file float_repr fs file_path) s
    = (inr tt, mkSt (trace s ++ [EvBanner file_path] ++ evs ++ [EvCompleted]) h).
Proof.
  destruct (examine_excel_file_outcome float_repr fs file_path s) as (evs & H).
  exists (evs ++ match fst (try_outcome fs file_path (handle s)) with
                 | inl e => [error_event file_path e]
                 | inr _ => []
                 end)%list,
         (snd (try_outcome fs file_path (handle s))).
  rewrite H. do 3 f_equal. now rewrite <- app_assoc.
Qed.

(** X4.  The handle at the end of a run: never opened when the workbook does
    not load; closed when it loads, has an active sheet, has at least one
    worksheet and the simulated read of the first worksheet can be
    serialised; left open in every other case. *)
Theorem final_handle_status
    (float_repr : spec_float -> string) (fs : string -> exn + Workbook)
    (file_path : string) :
  handle (snd (run (examine_excel_file float_repr fs file_path) initial))
  = match fs file_path with
    | inl _ => NotOpened
    | inr wb =>
        match active wb, worksheets wb with
        | Some _, first_ws :: _ =>
            if dumps_ok (read_data_from_excel file_path first_ws)
            then Closed else Opened
        | _, _ => Opened
        end
    end.
Proof.
  destruct (examine_excel_file_outcome float_repr fs file_path initial) as (evs & H).
  rewrite H. cbn [snd handle initial]. unfold try_outcome.
  destruct (fs file_path) as [e|wb]; [reflexivity|].
  destruct (active wb), (worksheets wb) as [|first_ws rest]; try reflexivity.
  now destruct (dumps_ok (read_data_from_excel file_path first_ws)).
Qed.

(** X5.  When the workbook cannot be loaded, nothing is examined: the run
    prints the banner, one line for the error (a line of its own kind when
    the file was not found) and the completion notice, and opens no
    handle. *)
Theorem load_failure_is_reported
    (float_repr : spec_float -> string) (fs : string -> exn + Workbook)
    (file_path : string) (e : exn) :
  fs file_path = inl e ->
  run (examine_excel_file float_repr fs file_path) initial
  = (inr tt,
     mkSt [EvBanner file_path;
           match e with
           | FileNotFoundError => EvFileNotFound file_path
           | _ => EvError e
           end;
           EvCompleted]
          NotOpened).
Proof.
  intros Hfs. unfold examine_excel_file, try_block, load_workbook.
  rewrite run_bind, run_print, run_bind, run_catch, Hfs, run_bind, run_raise.
  destruct e; reflexivity.
Qed.

Lemma load_failure_is_reported_witness :
  run (examine_excel_file no_repr (fs_with two_sheets) "other.xlsx") initial
  = (inr tt,
     mkSt [EvBanner "other.xlsx"; EvFileNotFound "other.xlsx"; EvCompleted]
          NotOpened).
Proof.
  exact (load_failure_is_reported no_repr (fs_with two_sheets) "other.xlsx"
                                  FileNotFoundError eq_refl).
Defined.

(** X6.  On a run where the workbook loads, has an active sheet and at least
    one worksheet, the last things printed before the completion notice are
    the metadata of the whole workbook, the call of the simulated read of its
    first worksheet under that worksheet's title and range, and then the
    result of that read when it can be serialised, or the [TypeError] of
    [json.dumps] in its place when it cannot. *)
Theorem successful_run_ends_with_the_tools
    (float_repr : spec_float -> string) (fs : string -> exn + Workbook)
    (file_path : string) (wb : Workbook) (t : string)
    (first_ws : Worksheet) (rest : list Worksheet) :
  fs file_path = inr wb -> active wb = Some t -> worksheets wb = first_ws :: rest ->
  exists evs,
    trace (snd (run (examine_excel_file float_repr fs file_path) initial))
    = (evs ++ [EvMetadata (get_workbook_metadata file_path wb);
               EvReadCall (title first_ws)
                          (a1_range (Pos.min 5 (max_column first_ws))
                                    (Pos.min 5 (max_row first_ws)));
               if dumps_ok (read_data_from_excel file_path first_ws)
               then EvReadResult (read_data_from_excel file_path first_ws)
               else EvError TypeError;
               EvCompleted])%list.
Proof.
  intros Hfs Hact Hws.
  destruct (for_enumerate_prints float_repr (worksheets wb) 1) as (e1 & H1).
  destruct (summary_prints float_repr wb (total_cells_nonzero wb _ _ Hws))
    as (e2 & H2).
  exists ([EvBanner file_path; EvFilePath file_path;
           EvTotalWorksheets (len (worksheets wb)); EvActiveSheet t;
           EvWorksheetNames (map title (worksheets wb))] ++ e1 ++ e2)%list.
  unfold examine_excel_file, try_block, load_workbook, active_title.
  rewrite run_bind, run_print, run_bind, run_catch.
  rewrite Hfs, run_bind, run_bind, run_set_handle, run_ret.
  rewrite run_bind, run_print, run_bind, run_print.
  rewrite Hact, run_bind, run_ret, run_bind, run_print, run_bind, run_print.
  rewrite run_bind, H1, run_bind, H2, run_bind.
  rewrite (tool_simulation_run file_path wb first_ws rest _ Hws).
  destruct (dumps_ok (read_data_from_excel file_path first_ws)).
  - rewrite run_set_handle, run_print. cbn [snd trace handle initial].
    rewrite <- !app_assoc. reflexivity.
  - cbn [handler]. rewrite run_print, run_print. cbn [snd trace handle initial].
    rewrite <- !app_assoc. reflexivity.
Qed.

Lemma successful_run_ends_with_the_tools_witness :
  exists evs,
    trace (snd (run (examine_excel_file no_repr (fs_with two_sheets) "test.xlsx")
                    initial))
    = (evs ++ [EvMetadata (get_workbook_metadata "test.xlsx" two_sheets);
               EvReadCall "Sample Data" "A1:C5";
               EvReadResult (read_data_from_excel "test.xlsx" sparse_sheet);
               EvCompleted])%list.
Proof.
  exact (successful_run_ends_with_the_tools
           no_repr (fs_with two_sheets) "test.xlsx" two_sheets "Sample Data"
           sparse_sheet [empty_sheet] eq_refl eq_refl eq_refl).
Defined.

(** ** The summary *)

(** X7.  The summary always prints the two counts; it then fails at the
    division exactly when the workbook has no worksheet, and prints the
    density as a percentage otherwise. *)
Theorem summary_fails_iff_no_worksheet
    (float_repr : spec_float -> string) (wb : Workbook) (s : St) :
  exists evs,
    run (summary float_repr wb) s
    = (match worksheets wb with
       | [] => inl ZeroDivisionError
       | _ :: _ => inr tt
       end,
       mkSt (trace s
             ++ [EvTotalCells (total_cells wb);
                 EvNonEmptyCells (non_empty_cells float_repr wb)]
             ++ evs)
            (handle s))
    /\ evs = match worksheets wb with
             | [] => []
             | _ :: _ =>
                 [EvDensityPercent
                    (inject_Z (non_empty_cells float_repr wb)
                     / inject_Z (total_cells wb) * 100)%Q]
             end.
Proof.
  eexists. split; [|reflexivity].
  destruct (worksheets wb) as [|ws l] eqn:Hws.
  - assert (Htot : total_cells wb = 0) by (unfold total_cells; now rewrite Hws).
    rewrite (summary_raises float_repr wb s Htot), Htot, app_nil_r. reflexivity.
  - pose proof (total_cells_nonzero wb ws l Hws) as Htot.
    unfold summary, density.
    rewrite run_bind, run_print, run_bind, run_print, run_bind.
    rewrite run_true_div by exact Htot. rewrite run_print.
    cbn [trace handle]. now rewrite <- !app_assoc.
Qed.

(** ** The simulated read *)

(** X8.  The simulated read returns the top-left corner of the worksheet, at
    most five rows by five columns: as many rows as the smaller of 5 and the
    nominal row count, each as long as the smaller of 5 and the nominal
    column count, under the title of the worksheet read. *)
Theorem simulated_read_is_at_most_five_by_five
    (file_path : string) (ws : Worksheet) :
  let result := read_data_from_excel file_path ws in
  rr_worksheet_name result = title ws
  /\ len (rr_data result) = Z.min 5 (Zpos (max_row ws))
  /\ Forall (fun row => len row = Z.min 5 (Zpos (max_column ws))) (rr_data result)
  /\ forall r c,
      (r <= Pos.min 5 (max_row ws))%positive ->
      (c <= Pos.min 5 (max_column ws))%positive ->
      exists row,
        nth_error (rr_data result) (Pos.to_nat r - 1) = Some row
        /\ nth_error row (Pos.to_nat c - 1) = Some (json_cell (value_at ws r c)).
Proof.
  cbv zeta. unfold read_data_from_excel. cbn [rr_worksheet_name rr_data].
  split; [reflexivity|]. split; [|split].
  - rewrite sample_rows_length. lia.
  - eapply Forall_impl; [|apply sample_rows_width]. cbv beta. intros row H. lia.
  - intros r c Hr Hc. eexists. split; [now apply sample_row|].
    now apply sample_cell.
Qed.


(** ** When every cell counts, and when none does *)

Lemma pos_seq_In n :
  forall start p,
    In p (pos_seq start n) <-> Zpos start <= Zpos p < Zpos start + Z.of_nat n.
Proof.
  induction n as [|n IH]; intros start p; cbn [pos_seq In].
  - lia.
  - rewrite IH. split.
    + intros [->|H]; lia.
    + intros H. destruct (Pos.eq_dec start p) as [->|Hne]; [now left|]. right. lia.
Qed.

Lemma pos_range_In m p : In p (pos_range 1 m) <-> (p <= m)%positive.
Proof. unfold pos_range. rewrite pos_seq_In. lia. Qed.

Lemma grid_cells_In ws r c :
  In (r, c) (grid_cells ws) <-> (r <= max_row ws)%positive /\ (c <= max_column ws)%positive.
Proof. unfold grid_cells. now rewrite in_prod_iff, !pos_range_In. Qed.

Section FilterFacts.
Context {A : Type} (p : A -> bool).

Lemma filter_all_length (l : list A) :
  len (filter p l) = len l <-> forall x, In x l -> p x = true.
Proof.
  unfold len. induction l as [|x l IH]; cbn [filter length In]; [tauto|].
  pose proof (filter_length_le p l) as Hle.
  destruct (p x) eqn:E; cbn [length]; split.
  - intros H y [<-|Hy]; [exact E|]. apply IH; [lia | exact Hy].
  - intros H. assert (Z.of_nat (length (filter p l)) = Z.of_nat (length l))
      by (apply IH; auto). lia.
  - lia.
  - intros H. specialize (H x (or_introl eq_refl)). congruence.
Qed.

Lemma filter_none_length (l : list A) :
  len (filter p l) = 0 <-> forall x, In x l -> p x = false.
Proof.
  unfold len. induction l as [|x l IH]; cbn [filter length In]; [tauto|].
  destruct (p x) eqn:E; cbn [length]; split.
  - lia.
  - intros H. specialize (H x (or_introl eq_refl)). congruence.
  - intros H y [<-|Hy]; [exact E|]. now apply IH.
  - intros H. apply IH. auto.
Qed.
End FilterFacts.

Section ExtremeFacts.
Variable float_repr : spec_float -> string.

Let counted (ws : Worksheet) : Z :=
  len (filter (fun rc => contributes float_repr (value_at ws (fst rc) (snd rc)))
              (grid_cells ws)).

Lemma counted_bounds ws :
  0 <= counted ws <= Zpos (max_row ws) * Zpos (max_column ws).
Proof.
  unfold counted. rewrite <- grid_cells_length. apply filter_length_bound.
Qed.

Lemma counted_full ws :
  counted ws = Zpos (max_row ws) * Zpos (max_column ws) <->
  forall r c, (r <= max_row ws)%positive -> (c <= max_column ws)%positive ->
              counts_as_non_empty float_repr (value_at ws r c) = true.
Proof.
  unfold counted. rewrite <- grid_cells_length, filter_all_length. split.
  - intros H r c Hr Hc. rewrite counts_as_non_empty_contributes.
    apply (H (r, c)). now apply grid_cells_In.
  - intros H [r c] Hin. apply grid_cells_In in Hin as [Hr Hc]. cbn [fst snd].
    rewrite <- counts_as_non_empty_contributes. now apply H.
Qed.

Lemma counted_none ws :
  counted ws = 0 <->
  forall r c, (r <= max_row ws)%positive -> (c <= max_column ws)%positive ->
              counts_as_non_empty float_repr (value_at ws r c) = false.
Proof.
  unfold counted. rewrite filter_none_length. split.
  - intros H r c Hr Hc. rewrite counts_as_non_empty_contributes.
    apply (H (r, c)). now apply grid_cells_In.
  - intros H [r c] Hin. apply grid_cells_In in Hin as [Hr Hc]. cbn [fst snd].
    rewrite <- counts_as_non_empty_contributes. now apply H.
Qed.

Lemma counts_extremes (l : list Worksheet) :
  let ne := fold_right Z.add 0 (map counted l) in
  let tot := fold_right Z.add 0
               (map (fun ws => Zpos (max_row ws) * Zpos (max_column ws)) l) in
  0 <= ne <= tot
  /\ (ne = tot <->
      forall ws, In ws l ->
                 counted ws = Zpos (max_row ws) * Zpos (max_column ws))
  /\ (ne = 0 <-> forall ws, In ws l -> counted ws = 0).
Proof.
  induction l as [|ws l IH]; cbn [map fold_right In].
  - cbv zeta. split; [lia|]. split; split; intros; try reflexivity; contradiction.
  - cbv zeta in *. destruct IH as (Hb & Hfull & Hnone).
    pose proof (counted_bounds ws) as Hc.
    split; [lia|]. split; split.
    + intros H w [<-|Hw]; [lia|]. apply Hfull; [lia | exact Hw].
    + intros H. rewrite (H ws (or_introl eq_refl)).
      f_equal. apply Hfull. auto.
    + intros H w [<-|Hw]; [lia|]. apply Hnone; [lia | exact Hw].
    + intros H. rewrite (H ws (or_introl eq_refl)).
      cbn [Z.add]. apply Hnone. auto.
Qed.

End ExtremeFacts.

(** X9.  The count of non-empty cells reaches the total exactly when every
    cell of every nominal grid counts as non-empty, and it is zero exactly
    when none does. *)
Theorem count_extremes
    (float_repr : spec_float -> string) (wb : Workbook) :
  (non_empty_cells float_repr wb = total_cells wb <->
   forall ws r c,
     In ws (worksheets wb) ->
     (r <= max_row ws)%positive -> (c <= max_column ws)%positive ->
     counts_as_non_empty float_repr (value_at ws r c) = true)
  /\ (non_empty_cells float_repr wb = 0 <->
      forall ws r c,
        In ws (worksheets wb) ->
        (r <= max_row ws)%positive -> (c <= max_column ws)%positive ->
        counts_as_non_empty float_repr (value_at ws r c) = false).
Proof.
  rewrite non_empty_cells_spec, total_cells_spec.
  unfold spec_nonEmptyCells, spec_totalCells.
  destruct (counts_extremes float_repr (worksheets wb)) as (_ & Hfull & Hnone).
  cbv zeta in Hfull, Hnone. split.
  - rewrite Hfull. split.
    + intros H ws r c Hin. now apply counted_full, H.
    + intros H ws Hin. apply counted_full. intros r c. now apply H.
  - rewrite Hnone. split.
    + intros H ws r c Hin. now apply counted_none, H.
    + intros H ws Hin. apply counted_none. intros r c. now apply H.
Qed.

(** ** What is shown of a worksheet that is not empty *)

Lemma display_rows_iter float_repr ws :
  map (map (display_cell float_repr))
      (iter_rows ws 1 (max_row ws) 1 (max_column ws))
  = display_rows float_repr ws.
Proof.
  unfold iter_rows, display_rows. rewrite map_map.
  apply map_ext. intros r. now rewrite map_map.
Qed.

Lemma display_rows_length float_repr ws :
  len (display_rows float_repr ws) = Zpos (max_row ws).
Proof.
  unfold len, display_rows. rewrite length_map, pos_range_length. lia.
Qed.

(** X10.  Examining a worksheet that is not empty prints, in this order, its
    header, its used range, its dimensions, the number of rows of its nominal
    grid, the lines of its first fifteen rows, each row being the texts of
    all its nominal columns joined by a bar, a note of the rows left out
    when there are more than fifteen, and at most four sample cells. *)
Theorem examination_shows_the_grid
    (float_repr : spec_float -> string) (sheet_index : Z) (ws : Worksheet) :
  is_empty_worksheet ws = false ->
  exists samples,
    prints (examine_worksheet float_repr sheet_index ws)
           ([EvSheetHeader sheet_index (title ws);
             EvUsedRange (a1_range (max_column ws) (max_row ws));
             EvDimensions (max_row ws) (max_column ws);
             EvDataContent (Zpos (max_row ws))]
            ++ firstn 15 (numbered_lines 0 (display_rows float_repr ws))
            ++ (if 15 <? Zpos (max_row ws)
                then [EvMoreRows (Zpos (max_row ws) - 15)] else [])
            ++ samples)
    /\ forallb is_sample samples = true
    /\ (length samples <= 4)%nat
    /\ Forall (fun row => len row = Zpos (max_column ws))
              (display_rows float_repr ws).
Proof.
  intros H.
  pose proof (print_rows_events (display_rows float_repr ws) 0
                                (Zpos (max_row ws)) ltac:(lia)
                                ltac:(rewrite display_rows_length; lia)) as Hrows.
  rewrite display_rows_length in Hrows. cbn [Z.sub Z.opp Z.add Z.to_nat] in Hrows.
  change (Z.to_nat 15) with 15%nat in Hrows.
  exists ((if ((1 <=? max_row ws) && (1 <=? max_column ws))%positive
           then [EvSampleCell "A1" (py_str float_repr (value_at ws 1 1))] else [])
          ++ (if ((2 <=? max_row ws) && (1 <=? max_column ws))%positive
              then [EvSampleCell "A2" (py_str float_repr (value_at ws 2 1))] else [])
          ++ (if ((1 <=? max_row ws) && (2 <=? max_column ws))%positive
              then [EvSampleCell "B1" (py_str float_repr (value_at ws 1 2))] else [])
          ++ (if ((2 <=? max_row ws) && (2 <=? max_column ws))%positive
              then [EvSampleCell "B2" (py_str float_repr (value_at ws 2 2))] else []))%list.
  split; [|split; [|split]].
  - unfold examine_worksheet. rewrite H. cbv zeta.
    rewrite display_rows_iter, display_rows_length.
    apply (prints_seq _ _ [EvSheetHeader sheet_index (title ws)]);
      [apply prints_print|].
    apply (prints_seq _ _ [EvUsedRange (a1_range (max_column ws) (max_row ws))]);
      [apply prints_print|].
    apply (prints_seq _ _ [EvDimensions (max_row ws) (max_column ws)]);
      [apply prints_print|].
    apply (prints_seq _ _ [EvDataContent (Zpos (max_row ws))]);
      [apply prints_print|].
    rewrite app_assoc. apply prints_seq; [exact Hrows|].
    do 3 (apply prints_seq; [apply prints_when, prints_print|]).
    apply prints_when, prints_print.
  - repeat match goal with |- context [if ?b then _ else _] => destruct b end;
      reflexivity.
  - repeat match goal with |- context [if ?b then _ else _] => destruct b end;
      cbn [app length]; lia.
  - unfold display_rows. apply Forall_forall. intros row Hin.
    apply in_map_iff in Hin as (r & <- & _).
    unfold len. rewrite length_map, pos_range_length. lia.
Qed.

Lemma examination_shows_the_grid_witness :
  exists samples,
    prints (examine_worksheet no_repr 1 sparse_sheet)
           ([EvSheetHeader 1 "Sample Data"; EvUsedRange "A1:C5";
             EvDimensions 5 3; EvDataContent 5]
            ++ firstn 15 (numbered_lines 0 (display_rows no_repr sparse_sheet))
            ++ [] ++ samples)
    /\ forallb is_sample samples = true
    /\ (length samples <= 4)%nat
    /\ Forall (fun row => len row = 3) (display_rows no_repr sparse_sheet).
Proof.
  exact (examination_shows_the_grid no_repr 1 sparse_sheet eq_refl).
Defined.

(** * Properties of the client script *)

Module ClientFacts.
Import Client.

Section RunFacts.
Context {A B : Type}.

Lemma step_ret (x : A) t : run (ret x) t = (inr x, t).
Proof. reflexivity. Qed.

Lemma step_bind (c : C A) (f : A -> C B) t :
  run (bind c f) t =
  match run c t with
  | (inl e, t') => (inl e, t')
  | (inr x, t') => run (f x) t'
  end.
Proof.
  unfold run. simpl. destruct (runState (unEitherT c) t) as [[e|x] t']; reflexivity.
Qed.

Lemma step_raise (e : exn) t : run (raise e : C A) t = (inl e, t).
Proof. reflexivity. Qed.

Lemma step_catch (c : C A) (h : exn -> C A) t :
  run (catch c h) t =
  match run c t with
  | (inl e, t') => run (h e) t'
  | (inr x, t') => (inr x, t')
  end.
Proof.
  unfold run. simpl. destruct (runState (unEitherT c) t) as [[e|x] t']; reflexivity.
Qed.

Lemma emits_ret (x : A) : emits (ret x) x [].
Proof. intros t. now rewrite step_ret, app_nil_r. Qed.

Lemma fails_raise (e : exn) : fails (raise e : C A) e [].
Proof. intros t. now rewrite step_raise, app_nil_r. Qed.

Lemma emits_bind (c : C A) (f : A -> C B) x y e1 e2 :
  emits c x e1 -> emits (f x) y e2 -> emits (bind c f) y (e1 ++ e2).
Proof. intros H1 H2 t. now rewrite step_bind, H1, H2, app_assoc. Qed.

Lemma fails_bind_first (c : C A) (f : A -> C B) e e1 :
  fails c e e1 -> fails (bind c f) e e1.
Proof. intros H1 t. now rewrite step_bind, H1. Qed.

Lemma fails_bind_second (c : C A) (f : A -> C B) x e e1 e2 :
  emits c x e1 -> fails (f x) e e2 -> fails (bind c f) e (e1 ++ e2).
Proof. intros H1 H2 t. now rewrite step_bind, H1, H2, app_assoc. Qed.

Lemma inner_ret (x : A) : inner (ret x).
Proof. intros t. exists (inr x), []. now rewrite step_ret, app_nil_r. Qed.

Lemma inner_raise (e : exn) : inner (raise e : C A).
Proof. intros t. exists (inl e), []. now rewrite step_raise, app_nil_r. Qed.

Lemma inner_bind (c : C A) (f : A -> C B) :
  inner c -> (forall x, inner (f x)) -> inner (bind c f).
Proof.
  intros Hc Hf t. rewrite step_bind.
  destruct (Hc t) as ([e|x] & e1 & -> & H1).
  - now exists (inl e), e1.
  - destruct (Hf x (t ++ e1)%list) as (r & e2 & -> & H2).
    exists r, (e1 ++ e2)%list. now rewrite app_assoc, forallb_app, H1, H2.
Qed.

End RunFacts.

Lemma step_print e t : run (print e) t = (inr tt, (t ++ [e])%list).
Proof. reflexivity. Qed.

Lemma emits_print e : emits (print e) tt [e].
Proof. intros t. apply step_print. Qed.

Lemma inner_print e : is_inner e = true -> inner (print e).
Proof.
  intros H t. exists (inr tt), [e]. rewrite step_print. cbn [forallb].
  now rewrite H.
Qed.

Lemma inner_when b c : inner c -> inner (when b c).
Proof. destruct b; [auto | intros _; apply inner_ret]. Qed.

Lemma inner_for_enumerate {A} (l : list A) body :
  (forall i x, inner (body i x)) -> forall start, inner (for_enumerate start l body).
Proof.
  intros Hb. induction l as [|x l IH]; intros start; cbn [for_enumerate].
  - apply inner_ret.
  - apply inner_bind; auto.
Qed.

Lemma inner_for_each {A} (l : list A) body :
  (forall x, inner (body x)) -> inner (for_each l body).
Proof.
  intros Hb. induction l as [|x l IH]; cbn [for_each].
  - apply inner_ret.
  - apply inner_bind; auto.
Qed.

Lemma inner_collect {A B} (l : list A) (f : A -> C (option B)) :
  (forall x, inner (f x)) -> inner (collect l f).
Proof.
  intros Hf. induction l as [|x l IH]; cbn [collect].
  - apply inner_ret.
  - apply inner_bind; [auto|]. intros y.
    apply inner_bind; [auto|]. intros ys. apply inner_ret.
Qed.

Create HintDb inner.
#[local] Hint Resolve inner_ret inner_raise inner_when inner_print : inner.

Ltac inner_step :=
  match goal with
  | |- inner (bind _ _) => apply inner_bind; [|intros ?]
  | |- inner (for_enumerate _ _ _) => apply inner_for_enumerate; intros ? ?
  | |- inner (for_each _ _) => apply inner_for_each; intros ?
  | |- inner (collect _ _) => apply inner_collect; intros ?
  | |- inner (when _ _) => apply inner_when
  | |- inner (print (if ?b then _ else _)) => destruct b
  | |- inner (print _) => apply inner_print; reflexivity
  | |- inner (ret _) => apply inner_ret
  | |- inner (raise _) => apply inner_raise
  | |- inner (if ?b then _ else _) => destruct b
  | |- inner (match ?x with _ => _ end) => destruct x
  end.

Ltac inner_all := repeat inner_step.

Lemma inner_py_get v key default : inner (py_get v key default).
Proof. unfold py_get. inner_all. Qed.

Lemma inner_py_len v : inner (py_len v).
Proof. unfold py_len. inner_all. Qed.

Lemma inner_py_iter v : inner (py_iter v).
Proof. unfold py_iter. inner_all. Qed.

Lemma inner_py_item v key : inner (py_item v key).
Proof. unfold py_item. destruct v; try apply inner_raise. inner_all. Qed.

Lemma inner_py_first v : inner (py_first v).
Proof. unfold py_first. inner_all. Qed.

Lemma inner_py_first_ten v : inner (py_first_ten v).
Proof. unfold py_first_ten. inner_all. Qed.

#[local] Hint Resolve inner_py_get inner_py_len inner_py_iter inner_py_item
  inner_py_first inner_py_first_ten : inner.

Lemma inner_call server c : inner (call server c).
Proof.
  unfold call, first_item.
  destruct (call_tool server c) as [e|[|[e|v] content]]; inner_all.
Qed.

Ltac inner_auto := repeat first [ solve [auto with inner] | inner_step ].

Lemma inner_row_texts row : inner (row_texts row).
Proof. unfold row_texts. inner_auto. Qed.

Lemma inner_rows_returned range data : inner (rows_returned range data).
Proof. unfold rows_returned. inner_auto. Qed.

Lemma inner_has_content row : inner (has_content row).
Proof. unfold has_content. inner_auto. Qed.

Lemma inner_first_cells rows : inner (first_cells rows).
Proof. unfold first_cells. inner_auto. Qed.

#[local] Hint Resolve inner_call inner_row_texts inner_rows_returned
  inner_has_content inner_first_cells : inner.

Lemma inner_section_1 server : inner (section_1 server).
Proof. unfold section_1, show_metadata. inner_auto. Qed.

Lemma inner_section_2 server : inner (section_2 server).
Proof. unfold section_2, show_preview. inner_auto. Qed.

Lemma inner_section_3 server : inner (section_3 server).
Proof. unfold section_3, show_summary. inner_auto. Qed.

Lemma inner_section_4 server : inner (section_4 server).
Proof. unfold section_4, read_cells, show_cells. inner_auto. Qed.

(** A section never raises: it prints its heading, what its body prints, and
    the error of its body if there is one. *)
Lemma section_run number body :
  inner body ->
  forall t, exists evs,
    run (section number body) t = (inr tt, (t ++ [EvSection number] ++ evs)%list)
    /\ forallb (in_section number) evs = true.
Proof.
  intros Hb t. unfold section. rewrite step_bind, step_print, step_catch.
  destruct (Hb (t ++ [EvSection number])%list) as ([e|[]] & evs & -> & Hin).
  - exists (evs ++ [EvSectionError number e])%list. rewrite step_print. split.
    + now rewrite <- !app_assoc.
    + rewrite forallb_app. cbn [forallb in_section is_inner orb andb].
      rewrite Z.eqb_refl, andb_true_r.
      apply forallb_forall. intros x Hx. unfold in_section.
      rewrite forallb_forall in Hin. now rewrite (Hin x Hx).
  - exists evs. split; [now rewrite <- app_assoc|].
    apply forallb_forall. intros x Hx. unfold in_section.
    rewrite forallb_forall in Hin. now rewrite (Hin x Hx).
Qed.

Lemma emits_tools (tools : list (string * string)) :
  emits (for_each tools (fun tool => print (EvTool (fst tool) (snd tool)))) tt
        (map (fun tool => EvTool (fst tool) (snd tool)) tools).
Proof.
  induction tools as [|tool tools IH]; cbn [for_each map].
  - apply emits_ret.
  - apply (emits_bind _ _ tt tt [_]); [apply emits_print | exact IH].
Qed.

Lemma four_sections_run server t :
  exists e1 e2 e3 e4,
    run (four_sections server) t
    = (inr tt,
       (t ++ [EvSection 1] ++ e1 ++ [EvSection 2] ++ e2
          ++ [EvSection 3] ++ e3 ++ [EvSection 4] ++ e4 ++ [EvCompleted])%list)
    /\ forallb (in_section 1) e1 = true
    /\ forallb (in_section 2) e2 = true
    /\ forallb (in_section 3) e3 = true
    /\ forallb (in_section 4) e4 = true.
Proof.
  unfold four_sections.
  destruct (section_run 1 _ (inner_section_1 server) t) as (e1 & H1 & Hi1).
  rewrite step_bind, H1.
  match goal with |- context [run _ ?t1] =>
    destruct (section_run 2 _ (inner_section_2 server) t1) as (e2 & H2 & Hi2)
  end.
  rewrite step_bind, H2.
  match goal with |- context [run _ ?t2] =>
    destruct (section_run 3 _ (inner_section_3 server) t2) as (e3 & H3 & Hi3)
  end.
  rewrite step_bind, H3.
  match goal with |- context [run _ ?t3] =>
    destruct (section_run 4 _ (inner_section_4 server) t3) as (e4 & H4 & Hi4)
  end.
  rewrite step_bind, H4, step_print.
  exists e1, e2, e3, e4. split; [|now repeat split].
  now rewrite <- !app_assoc.
Qed.

Lemma session_run server tools t :
  connect server = None -> list_tools server = inr tools ->
  run (session server) t
  = run (four_sections server)
        (t ++ [EvInitialized; EvTools (len tools)]
           ++ map (fun tool => EvTool (fst tool) (snd tool)) tools
           ++ [EvExamining])%list.
Proof.
  intros Hc Hl. unfold session. rewrite Hc, Hl.
  rewrite step_bind, step_print, step_bind, step_ret, step_bind, step_print.
  rewrite step_bind, emits_tools, step_bind, step_print.
  now rewrite <- !app_assoc.
Qed.

(** *** Answers of the expected shape *)

Ltac run_steps :=
  repeat (first [ rewrite step_bind | rewrite step_print | rewrite step_ret
                | rewrite step_raise ];
          cbn beta iota).

Lemma emits_row_texts (row : list PyJson) :
  emits (row_texts (PList row)) (map text_of row) [].
Proof. intros t. unfold row_texts, py_iter. run_steps. now rewrite app_nil_r. Qed.

Lemma emits_rows_returned range d (rows : list PyJson) :
  lookup d "data" = Some (PList rows) ->
  emits (rows_returned range (PDict d)) (PList rows)
        [EvRange range; EvRowsReturned (len rows)].
Proof.
  intros H t. unfold rows_returned, py_get, py_len. rewrite H. run_steps.
  now rewrite <- app_assoc.
Qed.

Lemma emits_data_lines (rows : list (list PyJson)) :
  forall i, 0 < i ->
    emits (for_enumerate i (map PList rows)
             (fun i row =>
                texts <- row_texts row ;;
                print (if i =? 0 then EvHeader texts else EvData texts)))
          tt (map (fun row => EvData (map text_of row)) rows).
Proof.
  induction rows as [|row rows IH]; intros i Hi; cbn [map for_enumerate].
  - apply emits_ret.
  - apply (emits_bind _ _ tt tt [_]); [|apply IH; lia].
    apply (emits_bind _ _ (map text_of row) tt [] [_]); [apply emits_row_texts|].
    destruct (Z.eqb_spec i 0); [lia|]. apply emits_print.
Qed.

Lemma emits_preview_lines (rows : list (list PyJson)) :
  emits (for_enumerate 0 (map PList rows)
           (fun i row =>
              texts <- row_texts row ;;
              print (if i =? 0 then EvHeader texts else EvData texts)))
        tt (preview_lines rows).
Proof.
  destruct rows as [|row rows]; cbn [map for_enumerate preview_lines].
  - apply emits_ret.
  - apply (emits_bind _ _ tt tt [_]); [|apply emits_data_lines; lia].
    apply (emits_bind _ _ (map text_of row) tt [] [_]); [apply emits_row_texts|].
    apply emits_print.
Qed.

Lemma emits_has_content (row : list PyJson) :
  emits (has_content (PList row))
        (existsb (fun cell => negb (is_None cell)) row) [].
Proof.
  intros t. unfold has_content, py_iter. destruct row as [|c row]; cbn [truthy];
    run_steps; now rewrite app_nil_r.
Qed.

Lemma emits_summary_lines (rows : list (list PyJson)) :
  forall i,
    emits (for_enumerate i (map PList rows)
             (fun i row =>
                shown <- has_content row ;;
                if (shown : bool) then
                  texts <- row_texts row ;;
                  print (if i =? 0 then EvHeader texts else EvSummary texts)
                else ret tt))
          tt (summary_lines i rows).
Proof.
  induction rows as [|row rows IH]; intros i; cbn [map for_enumerate summary_lines].
  - apply emits_ret.
  - apply emits_bind with (x := tt); [|apply IH].
    apply (emits_bind _ _ (existsb (fun cell => negb (is_None cell)) row) tt []);
      [apply emits_has_content|].
    destruct (existsb (fun cell => negb (is_None cell)) row).
    + apply (emits_bind _ _ (map text_of row) tt [] [_]); [apply emits_row_texts|].
      destruct (i =? 0); apply emits_print.
    + apply emits_ret.
Qed.

Lemma emits_first_cells (rows : list (list PyJson)) :
  emits (first_cells (PList (map PList rows))) (first_column rows) [].
Proof.
  unfold first_cells, py_iter.
  apply (emits_bind _ _ (map PList rows) _ [] []); [apply emits_ret|].
  induction rows as [|row rows IH]; cbn [map collect first_column flat_map].
  - apply emits_ret.
  - destruct row as [|cell row]; cbn [truthy].
    + apply (emits_bind _ _ None _ [] []); [apply emits_ret|].
      apply (emits_bind _ _ (first_column rows) _ [] []); [exact IH|].
      apply emits_ret.
    + apply (emits_bind _ _ (if is_None cell then None else Some cell) _ [] []).
      * apply (emits_bind _ _ cell _ [] []); apply emits_ret.
      * apply (emits_bind _ _ (first_column rows) _ [] []); [exact IH|].
        destruct (is_None cell); apply emits_ret.
Qed.

Lemma len_eq_1 {A} (l : list A) :
  (len l =? 1) = match l with [_] => true | _ => false end.
Proof.
  destruct l as [|x [|y l]]; try reflexivity.
  apply Z.eqb_neq. unfold len. cbn [length]. lia.
Qed.

Lemma firstn_map_PList n (rows : list (list PyJson)) :
  firstn n (map PList rows) = map PList (firstn n rows).
Proof. apply firstn_map. Qed.

Lemma emits_sheet_lines (entries : list PyJson) :
  forall fields i,
    map entry_fields entries = map Some fields ->
    emits (for_enumerate i entries
             (fun i ws =>
                sheet_name <- py_item ws "name" ;;
                range <- py_item ws "used_range" ;;
                print (EvSheet i sheet_name range)))
          tt (sheet_lines i fields).
Proof.
  induction entries as [|entry entries IH]; intros fields i H;
    destruct fields as [|[n r] fields]; try discriminate H.
  - apply emits_ret.
  - cbn [map] in H. injection H as He Hrest.
    cbn [for_enumerate sheet_lines].
    apply (emits_bind _ _ tt tt [_]); [|now apply IH].
    unfold entry_fields in He. destruct entry; try discriminate He.
    destruct (lookup d "name") as [n'|] eqn:Hn; [|discriminate He].
    destruct (lookup d "used_range") as [r'|] eqn:Hr; [|discriminate He].
    injection He as -> ->.
    intros t. unfold py_item. rewrite Hn, Hr. run_steps. reflexivity.
Qed.

(** The key whose absence makes an entry fail: the name is asked for
    first. *)
Lemma fails_sheet_lines (good : list PyJson) b (rest : list PyJson) :
  forall fields i,
    map entry_fields good = map Some fields ->
    entry_fields (PDict b) = None ->
    fails (for_enumerate i (good ++ PDict b :: rest)
             (fun i ws =>
                sheet_name <- py_item ws "name" ;;
                range <- py_item ws "used_range" ;;
                print (EvSheet i sheet_name range)))
          (KeyError (PStr match lookup b "name" with
                          | Some _ => "used_range"
                          | None => "name"
                          end))
          (sheet_lines i fields).
Proof.
  induction good as [|entry good IH]; intros fields i H Hb;
    destruct fields as [|[n r] fields]; try discriminate H.
  - cbn [app for_enumerate sheet_lines]. apply fails_bind_first.
    unfold entry_fields in Hb. intros t. unfold py_item.
    destruct (lookup b "name") as [n'|] eqn:Hn.
    + destruct (lookup b "used_range") as [r'|] eqn:Hr; [discriminate Hb|].
      run_steps. now rewrite app_nil_r.
    + run_steps. now rewrite app_nil_r.
  - cbn [map] in H. injection H as He Hrest.
    cbn [app for_enumerate sheet_lines].
    apply (fails_bind_second _ _ tt _ [_]); [|now apply IH].
    unfold entry_fields in He. destruct entry; try discriminate He.
    destruct (lookup d "name") as [n'|] eqn:Hn; [|discriminate He].
    destruct (lookup d "used_range") as [r'|] eqn:Hr; [|discriminate He].
    injection He as -> ->.
    intros t. unfold py_item. rewrite Hn, Hr. run_steps. reflexivity.
Qed.

Lemma for_each_emits {A} (body : A -> C unit) (shown : A -> list Event)
      (l : list A) :
  (forall x, In x l -> emits (body x) tt (shown x)) ->
  emits (for_each l body) tt (flat_map shown l).
Proof.
  induction l as [|x l IH]; intros H; cbn [for_each flat_map].
  - apply emits_ret.
  - apply emits_bind with (x := tt); [apply H; now left|].
    apply IH. intros y Hy. apply H. now right.
Qed.

Lemma for_each_fails {A} (body : A -> C unit) (shown : A -> list Event)
      (before : list A) (x : A) (after : list A) e evs :
  (forall y, In y before -> emits (body y) tt (shown y)) ->
  fails (body x) e evs ->
  fails (for_each (before ++ x :: after) body) e (flat_map shown before ++ evs).
Proof.
  intros Hb Hx. induction before as [|y before IH]; cbn [app for_each flat_map].
  - now apply fails_bind_first.
  - rewrite <- app_assoc. apply fails_bind_second with (x := tt).
    + apply Hb. now left.
    + apply IH. intros z Hz. apply Hb. now right.
Qed.

End ClientFacts.

(** X11.  Once the session is set up and the tools are listed, all four
    sections run, in order, whatever the server answers to the calls: an
    error inside a section is printed by that section and the next section
    still starts; the run ends with the completion notice and no exception
    leaves it. *)
Theorem sections_are_isolated
    (server : Client.Server) (tools : list (string * string)) :
  Client.connect server = None ->
  Client.list_tools server = inr tools ->
  exists e1 e2 e3 e4,
    Client.run (Client.examine_excel_file server) []
    = (inr tt,
       ([Client.EvStarting; Client.EvInitialized; Client.EvTools (len tools)]
        ++ map (fun tool => Client.EvTool (fst tool) (snd tool)) tools
        ++ [Client.EvExamining]
        ++ [Client.EvSection 1] ++ e1
        ++ [Client.EvSection 2] ++ e2
        ++ [Client.EvSection 3] ++ e3
        ++ [Client.EvSection 4] ++ e4
        ++ [Client.EvCompleted])%list)
    /\ forallb (Client.in_section 1) e1 = true
    /\ forallb (Client.in_section 2) e2 = true
    /\ forallb (Client.in_section 3) e3 = true
    /\ forallb (Client.in_section 4) e4 = true.
Proof.
  intros Hc Hl.
  destruct (ClientFacts.four_sections_run server
              ([Client.EvStarting]
               ++ [Client.EvInitialized; Client.EvTools (len tools)]
               ++ map (fun tool => Client.EvTool (fst tool) (snd tool)) tools
               ++ [Client.EvExamining])%list)
    as (e1 & e2 & e3 & e4 & Hrun & Hin).
  exists e1, e2, e3, e4. split; [|exact Hin].
  unfold Client.examine_excel_file.
  rewrite ClientFacts.step_bind, ClientFacts.step_print, ClientFacts.step_catch.
  rewrite (ClientFacts.session_run server tools _ Hc Hl).
  cbn [app] in *. rewrite Hrun. f_equal.
  now rewrite <- !app_assoc.
Qed.

Lemma sections_are_isolated_witness :
  exists e1 e2 e3 e4,
    Client.run (Client.examine_excel_file Client.sample_server) []
    = (inr tt,
       ([Client.EvStarting; Client.EvInitialized; Client.EvTools 1]
        ++ [Client.EvTool "read_data_from_excel" "Read a range"]
        ++ [Client.EvExamining]
        ++ [Client.EvSection 1] ++ e1
        ++ [Client.EvSection 2] ++ e2
        ++ [Client.EvSection 3] ++ e3
        ++ [Client.EvSection 4] ++ e4
        ++ [Client.EvCompleted])%list)
    /\ forallb (Client.in_section 1) e1 = true
    /\ forallb (Client.in_section 2) e2 = true
    /\ forallb (Client.in_section 3) e3 = true
    /\ forallb (Client.in_section 4) e4 = true.
Proof.
  exact (sections_are_isolated Client.sample_server _ eq_refl eq_refl).
Defined.

(** X12.  When the session cannot be set up, or the tools cannot be listed,
    no section runs: the failure is printed and the script returns. *)
Theorem setup_failure_skips_every_section
    (server : Client.Server) (e : Client.exn) :
  Client.connect server = Some e
  \/ (Client.connect server = None /\ Client.list_tools server = inl e) ->
  Client.run (Client.examine_excel_file server) []
  = (inr tt,
     (Client.EvStarting
      :: match Client.connect server with
         | Some _ => []
         | None => [Client.EvInitialized]
         end ++ [Client.EvFailure e])%list).
Proof.
  unfold Client.examine_excel_file, Client.session.
  intros [Hc|[Hc Hl]]; rewrite Hc; [|rewrite Hl]; reflexivity.
Qed.

Lemma setup_failure_skips_every_section_witness :
  Client.run
    (Client.examine_excel_file
       (Client.mkServer (Some (Client.Raised "no server")) (inr [])
                        (fun _ => inr [])))
    []
  = (inr tt, [Client.EvStarting; Client.EvFailure (Client.Raised "no server")]).
Proof.
  exact (setup_failure_skips_every_section
           (Client.mkServer (Some (Client.Raised "no server")) (inr [])
                            (fun _ => inr []))
           (Client.Raised "no server") (or_introl eq_refl)).
Defined.

(** X13.  Of an answer whose data are rows of cells, the preview shows the
    range asked for, the number of rows returned, and the first ten rows at
    most, in order, the first as header; a cell that is [None] is shown as
    an empty text.  Without any row there is no preview. *)
Theorem preview_shows_first_ten_rows
    (d : list (string * Client.PyJson)) (rows : list (list Client.PyJson)) :
  Client.lookup d "data" = Some (Client.PList (map Client.PList rows)) ->
  Client.emits (Client.show_preview (Client.PDict d)) tt
    ([Client.EvRange "A1:E10"; Client.EvRowsReturned (len rows)]
     ++ match rows with
        | [] => []
        | _ :: _ => Client.EvPreviewTitle :: Client.preview_lines (firstn 10 rows)
        end).
Proof.
  intros H. unfold Client.show_preview.
  replace (len rows) with (len (map Client.PList rows))
    by (unfold len; now rewrite length_map).
  eapply ClientFacts.emits_bind.
  { apply (ClientFacts.emits_rows_returned _ _ _ H). }
  destruct rows as [|row rows]; [apply ClientFacts.emits_ret|].
  cbn [map Client.truthy Client.when].
  apply (ClientFacts.emits_bind _ _ tt tt [_]); [apply ClientFacts.emits_print|].
  unfold Client.py_first_ten, Client.py_iter.
  apply (ClientFacts.emits_bind _ _ _ tt [] _ (ClientFacts.emits_ret _)).
  apply (ClientFacts.emits_bind _ _ _ tt [] _ (ClientFacts.emits_ret _)).
  change (Client.PList row :: map Client.PList rows)
    with (map Client.PList (row :: rows)).
  rewrite ClientFacts.firstn_map_PList. apply ClientFacts.emits_preview_lines.
Qed.

Lemma preview_shows_first_ten_rows_witness :
  Client.emits
    (Client.show_preview
       (Client.PDict
          [("data", Client.PList (map Client.PList (repeat [Client.PInt 7] 12)))]))
    tt
    ([Client.EvRange "A1:E10"; Client.EvRowsReturned 12; Client.EvPreviewTitle;
      Client.EvHeader [Client.StrOf (Client.PInt 7)]]
     ++ repeat (Client.EvData [Client.StrOf (Client.PInt 7)]) 9).
Proof.
  exact (preview_shows_first_ten_rows
           [("data", Client.PList (map Client.PList (repeat [Client.PInt 7] 12)))]
           (repeat [Client.PInt 7] 12) eq_refl).
Defined.

(** X14.  Of an answer whose data are rows of cells, the summary shows the
    range asked for, the number of rows returned and, without any cap, one
    line per row that holds a cell other than [None]; a row that is empty or
    holds [None] only has no line, and only the row at position 0 can be
    shown as header. *)
Theorem summary_skips_blank_rows
    (d : list (string * Client.PyJson)) (rows : list (list Client.PyJson)) :
  Client.lookup d "data" = Some (Client.PList (map Client.PList rows)) ->
  Client.emits (Client.show_summary (Client.PDict d)) tt
    ([Client.EvRange "A1:C10"; Client.EvRowsReturned (len rows)]
     ++ match rows with
        | [] => []
        | _ :: _ => Client.EvSummaryTitle :: Client.summary_lines 0 rows
        end).
Proof.
  intros H. unfold Client.show_summary.
  replace (len rows) with (len (map Client.PList rows))
    by (unfold len; now rewrite length_map).
  eapply ClientFacts.emits_bind.
  { apply (ClientFacts.emits_rows_returned _ _ _ H). }
  destruct rows as [|row rows]; [apply ClientFacts.emits_ret|].
  cbn [map Client.truthy Client.when].
  apply (ClientFacts.emits_bind _ _ tt tt [_]); [apply ClientFacts.emits_print|].
  unfold Client.py_iter.
  apply (ClientFacts.emits_bind _ _ _ tt [] _ (ClientFacts.emits_ret _)).
  change (Client.PList row :: map Client.PList rows)
    with (map Client.PList (row :: rows)).
  apply ClientFacts.emits_summary_lines.
Qed.

Lemma summary_skips_blank_rows_witness :
  Client.emits (Client.show_summary Client.sample_data) tt
    [Client.EvRange "A1:C10"; Client.EvRowsReturned 3; Client.EvSummaryTitle;
     Client.EvHeader [Client.StrOf (Client.PStr "Name");
                      Client.StrOf (Client.PStr "Age")];
     Client.EvSummary [Client.StrOf (Client.PStr "Ann");
                       Client.StrOf (Client.PInt 31)]].
Proof.
  exact (summary_skips_blank_rows
           [("data", Client.PList (map Client.PList Client.sample_rows))]
           Client.sample_rows eq_refl).
Defined.

(** X15.  Of an answer whose data are rows of cells, a read of specific
    cells shows nothing when there is no row, the value of the cell when
    there is one row of one cell (also when that value is [None]), and
    otherwise the first cells of the rows, leaving out empty rows and cells
    that are [None]. *)
Theorem cells_shown_as_value_or_column
    (cell_range : string) (d : list (string * Client.PyJson))
    (rows : list (list Client.PyJson)) :
  Client.lookup d "data" = Some (Client.PList (map Client.PList rows)) ->
  Client.emits (Client.show_cells cell_range (Client.PDict d)) tt
    match rows with
    | [] => []
    | [[value]] => [Client.EvCell cell_range value]
    | _ => [Client.EvCells cell_range (Client.first_column rows)]
    end.
Proof.
  intros H t. unfold Client.show_cells, Client.py_get. rewrite H.
  assert (Hcolumn :
            forall t',
              Client.run (Client.first_cells (Client.PList (map Client.PList rows))) t'
              = (inr (Client.first_column rows), t')).
  { intros t'. rewrite (ClientFacts.emits_first_cells rows t').
    now rewrite app_nil_r. }
  ClientFacts.run_steps.
  destruct rows as [|row rows]; cbn [map Client.truthy Client.when] in *.
  - ClientFacts.run_steps. now rewrite app_nil_r.
  - unfold Client.py_len at 1. ClientFacts.run_steps.
    rewrite ClientFacts.len_eq_1.
    destruct rows as [|row2 rows]; cbn [map] in *.
    + unfold Client.py_first at 1. ClientFacts.run_steps.
      unfold Client.py_len. ClientFacts.run_steps.
      rewrite ClientFacts.len_eq_1.
      destruct row as [|value [|value2 row]]; ClientFacts.run_steps;
        try (rewrite Hcolumn; ClientFacts.run_steps; reflexivity).
      unfold Client.py_first. ClientFacts.run_steps. reflexivity.
    + ClientFacts.run_steps. rewrite Hcolumn. ClientFacts.run_steps.
      destruct row as [|value [|value2 row]]; reflexivity.
Qed.

Lemma cells_shown_as_value_or_column_witness :
  Client.emits
    (Client.show_cells "A1" (Client.PDict [("data", Client.PList [Client.PList [Client.PNull]])]))
    tt [Client.EvCell "A1" Client.PNull].
Proof.
  exact (cells_shown_as_value_or_column
           "A1" [("data", Client.PList [Client.PList [Client.PNull]])]
           [[Client.PNull]] eq_refl).
Defined.

(** X16.  Of metadata whose worksheet entries all have a name and a used
    range, the first section shows the file path (or N/A without one), the
    number of entries, and one line per entry, in order, numbered from 1. *)
Theorem metadata_lines_are_numbered
    (d : list (string * Client.PyJson)) (entries : list Client.PyJson)
    (fields : list (Client.PyJson * Client.PyJson)) :
  Client.lookup d "worksheets" = Some (Client.PList entries) ->
  map Client.entry_fields entries = map Some fields ->
  Client.emits (Client.show_metadata (Client.PDict d)) tt
    ([Client.EvFile match Client.lookup d "file_path" with
                    | Some p => p
                    | None => Client.PStr "N/A"
                    end;
      Client.EvTotalWorksheets (len entries)]
     ++ Client.sheet_lines 1 fields).
Proof.
  intros Hd Hf t.
  unfold Client.show_metadata, Client.py_get, Client.py_len, Client.py_iter.
  rewrite Hd. ClientFacts.run_steps.
  rewrite (ClientFacts.emits_sheet_lines entries fields 1 Hf).
  now rewrite <- !app_assoc.
Qed.

Lemma metadata_lines_are_numbered_witness :
  Client.emits
    (Client.show_metadata
       (Client.PDict
          [("worksheets",
            Client.PList
              [Client.PDict [("name", Client.PStr "Sample Data");
                             ("used_range", Client.PStr "A1:C5")];
               Client.PDict [("used_range", Client.PStr "A1:A1");
                             ("name", Client.PStr "Empty")]])]))
    tt
    [Client.EvFile (Client.PStr "N/A"); Client.EvTotalWorksheets 2;
     Client.EvSheet 1 (Client.PStr "Sample Data") (Client.PStr "A1:C5");
     Client.EvSheet 2 (Client.PStr "Empty") (Client.PStr "A1:A1")].
Proof.
  exact (metadata_lines_are_numbered
           [("worksheets",
             Client.PList
               [Client.PDict [("name", Client.PStr "Sample Data");
                              ("used_range", Client.PStr "A1:C5")];
                Client.PDict [("used_range", Client.PStr "A1:A1");
                              ("name", Client.PStr "Empty")]])]
           _
           [(Client.PStr "Sample Data", Client.PStr "A1:C5");
            (Client.PStr "Empty", Client.PStr "A1:A1")]
           eq_refl eq_refl).
Defined.

(** X17.  When a worksheet entry of the metadata lacks its name or its used
    range, the entries before it are shown, then the first section fails
    with a [KeyError] for the missing key, the name being asked for first;
    the entries after it are not shown. *)
Theorem metadata_entry_without_key_fails
    (d b : list (string * Client.PyJson)) (good rest : list Client.PyJson)
    (fields : list (Client.PyJson * Client.PyJson)) :
  Client.lookup d "worksheets"
  = Some (Client.PList (good ++ Client.PDict b :: rest)) ->
  map Client.entry_fields good = map Some fields ->
  Client.entry_fields (Client.PDict b) = None ->
  Client.fails (Client.show_metadata (Client.PDict d))
    (Client.KeyError
       (Client.PStr match Client.lookup b "name" with
                    | Some _ => "used_range"
                    | None => "name"
                    end))
    ([Client.EvFile match Client.lookup d "file_path" with
                    | Some p => p
                    | None => Client.PStr "N/A"
                    end;
      Client.EvTotalWorksheets (len (good ++ Client.PDict b :: rest))]
     ++ Client.sheet_lines 1 fields).
Proof.
  intros Hd Hf Hb t.
  unfold Client.show_metadata, Client.py_get, Client.py_len, Client.py_iter.
  rewrite Hd. ClientFacts.run_steps.
  rewrite (ClientFacts.fails_sheet_lines good b rest fields 1 Hf Hb).
  now rewrite <- !app_assoc.
Qed.

Lemma metadata_entry_without_key_fails_witness :
  Client.fails (Client.show_metadata Client.sample_metadata)
    (Client.KeyError (Client.PStr "used_range"))
    [Client.EvFile (Client.PStr "test.xlsx"); Client.EvTotalWorksheets 2;
     Client.EvSheet 1 (Client.PStr "Sample Data") (Client.PStr "A1:C5")].
Proof.
  exact (metadata_entry_without_key_fails
           [("file_path", Client.PStr "test.xlsx");
            ("worksheets",
             Client.PList
               [Client.PDict [("name", Client.PStr "Sample Data");
                              ("used_range", Client.PStr "A1:C5")];
                Client.PDict [("name", Client.PStr "Empty")]])]
           [("name", Client.PStr "Empty")]
           [Client.PDict [("name", Client.PStr "Sample Data");
                          ("used_range", Client.PStr "A1:C5")]]
           []
           [(Client.PStr "Sample Data", Client.PStr "A1:C5")]
           eq_refl eq_refl eq_refl).
Defined.

(** X18.  The four specific ranges are read in one [try]: the ranges read
    before the first one that fails are shown, the failure is printed as the
    error of the fourth section, and the ranges after it are neither asked
    for nor shown. *)
Theorem cells_stop_at_first_failure
    (server : Client.Server) (shown : string -> list Client.Event)
    (before after : list string) (cell_range : string)
    (e : Client.exn) (evs : list Client.Event) :
  Client.cell_ranges = (before ++ cell_range :: after)%list ->
  (forall r, In r before -> Client.emits (Client.read_cells server r) tt (shown r)) ->
  Client.fails (Client.read_cells server cell_range) e evs ->
  Client.emits (Client.section 4 (Client.section_4 server)) tt
    ([Client.EvSection 4] ++ flat_map shown before ++ evs
     ++ [Client.EvSectionError 4 e]).
Proof.
  intros Hr Hb Hf t. unfold Client.section, Client.section_4. rewrite Hr.
  rewrite ClientFacts.step_bind, ClientFacts.step_print, ClientFacts.step_catch.
  rewrite (ClientFacts.for_each_fails _ shown before cell_range after e evs Hb Hf).
  rewrite ClientFacts.step_print. now rewrite <- !app_assoc.
Qed.

Lemma cells_stop_at_first_failure_witness :
  let server :=
    Client.mkServer None (inr [])
      (fun c =>
         match c with
         | Client.read_data_from_excel _ _ "B2" => inl (Client.Raised "bad range")
         | _ => inr []
         end) in
  Client.emits (Client.section 4 (Client.section_4 server)) tt
    [Client.EvSection 4; Client.EvSectionError 4 (Client.Raised "bad range")].
Proof.
  refine (cells_stop_at_first_failure _ (fun _ => []) ["A1"] ["E2"; "A1:A5"] "B2"
            (Client.Raised "bad range") [] eq_refl _ _).
  - intros r [<-|[]] t. rewrite app_nil_r. reflexivity.
  - intros t. rewrite app_nil_r. reflexivity.
Defined.


Example time_cell_breaks_the_read :
  let final :=
    snd (run (examine_excel_file no_repr
                (fs_with (mkWorkbook [timed_sheet] (Some "Times"))) "test.xlsx")
             initial) in
  handle final = Opened
  /\ skipn 16 (trace final)
     = [EvMetadata (mkMetadata "test.xlsx" [mkWsInfo "Times" "A1:A2" 2 1]);
        EvReadCall "Times" "A1:A2";
        EvError TypeError; EvCompleted].
Proof. split; reflexivity. Qed.
